(** * runpod.serverless.utils.rp_download

    A shallow embedding of [src/runpod/serverless/utils/rp_download.py]:
    the batch downloader [download_files_from_urls] and the single-file
    downloader [file], together with the library functions they are built
    from ([os.path], [urllib.parse.urlparse], [email.message_from_string],
    [re.findall] on the one pattern that is used, [backoff.on_exception]).

    Text is modelled as [string] (sequences of 8-bit characters), file
    contents as [list byte], Python integers as [Z].  The network, the
    file system, the random name generator and the working directory are
    an environment [Env] that every definition takes as an argument; the
    effects a call performs are recorded in a chronological [trace]. *)

From Stdlib Require Import String Ascii List ZArith Lia Bool Arith.
From Stdlib Require Import Init.Byte.
Import ListNotations.

Open Scope string_scope.

(** ** Python [str] methods *)

Module PyStr.

Definition LF : ascii := "010"%char.
Definition CR : ascii := "013"%char.
Definition TAB : ascii := "009"%char.
Definition SP : ascii := " "%char.

(** [len(s)] as a Python integer. *)
Definition len (s : string) : Z := Z.of_nat (String.length s).

(** [s.find(c)] for a one-character [c]: index of the first occurrence,
    [-1] when there is none. *)
Fixpoint find (c : ascii) (s : string) : Z :=
  match s with
  | EmptyString => (-1)%Z
  | String a s' =>
      if Ascii.eqb a c then 0%Z
      else let r := find c s' in
           if (r <? 0)%Z then (-1)%Z else (r + 1)%Z
  end.

(** [s.rfind(c)]: index of the last occurrence, [-1] when there is none. *)
Fixpoint rfind (c : ascii) (s : string) : Z :=
  match s with
  | EmptyString => (-1)%Z
  | String a s' =>
      let r := rfind c s' in
      if (0 <=? r)%Z then (r + 1)%Z
      else if Ascii.eqb a c then 0%Z else (-1)%Z
  end.

Fixpoint drop (n : nat) (s : string) : string :=
  match n, s with
  | O, _ => s
  | S n', String _ s' => drop n' s'
  | S _, EmptyString => EmptyString
  end.

Fixpoint take (n : nat) (s : string) : string :=
  match n, s with
  | O, _ => EmptyString
  | S n', String a s' => String a (take n' s')
  | S _, EmptyString => EmptyString
  end.

(** [s[i:]] and [s[:i]] for an index [i >= 0]; every slice of the embedded
    code is taken at such an index. *)
Definition slice_from (i : Z) (s : string) : string := drop (Z.to_nat i) s.
Definition slice_to (i : Z) (s : string) : string := take (Z.to_nat i) s.

(** [s.find(c, start)] for [0 <= start]. *)
Definition find_from (c : ascii) (start : Z) (s : string) : Z :=
  let r := find c (slice_from start s) in
  if (r <? 0)%Z then (-1)%Z else (start + r)%Z.

(** [c in s]. *)
Definition contains (c : ascii) (s : string) : bool := (0 <=? find c s)%Z.

(** [s.startswith(p)] and [s.endswith(c)] for a one-character [c]. *)
Definition startswith (p s : string) : bool := String.prefix p s.

Fixpoint endswith (c : ascii) (s : string) : bool :=
  match s with
  | EmptyString => false
  | String a EmptyString => Ascii.eqb a c
  | String _ s' => endswith c s'
  end.

(** [s.split(c, 1)] when [c in s]: the text before and after the first [c]. *)
Definition split_once (c : ascii) (s : string) : string * string :=
  let i := find c s in (slice_to i s, slice_from (i + 1) s).

(** [s.split(c)]: every piece between occurrences of [c]; never empty. *)
Fixpoint split (c : ascii) (s : string) : list string :=
  match s with
  | EmptyString => [EmptyString]
  | String a s' =>
      if Ascii.eqb a c then EmptyString :: split c s'
      else match split c s' with
           | piece :: rest => String a piece :: rest
           | [] => [String a EmptyString]
           end
  end.

(** [sep.join(pieces)]. *)
Definition join (sep : string) (pieces : list string) : string :=
  String.concat sep pieces.

(** [s.replace(c, '')]: every occurrence of [c] removed. *)
Fixpoint remove (c : ascii) (s : string) : string :=
  match s with
  | EmptyString => EmptyString
  | String a s' => if Ascii.eqb a c then remove c s' else String a (remove c s')
  end.

(** [s.lstrip(chars)] and [s.rstrip(chars)], the character set given as a
    predicate. *)
Fixpoint lstrip (chars : ascii -> bool) (s : string) : string :=
  match s with
  | EmptyString => EmptyString
  | String a s' => if chars a then lstrip chars s' else s
  end.

Fixpoint rstrip (chars : ascii -> bool) (s : string) : string :=
  match s with
  | EmptyString => EmptyString
  | String a s' =>
      match rstrip chars s' with
      | EmptyString => if chars a then EmptyString else String a EmptyString
      | t => String a t
      end
  end.

Definition in_range (lo hi : N) (c : ascii) : bool :=
  let n := N_of_ascii c in (lo <=? n)%N && (n <=? hi)%N.

Definition is_upper (c : ascii) : bool := in_range 65 90 c.
Definition is_lower (c : ascii) : bool := in_range 97 122 c.
Definition is_digit (c : ascii) : bool := in_range 48 57 c.
Definition is_alpha (c : ascii) : bool := is_upper c || is_lower c.
Definition is_ascii (c : ascii) : bool := in_range 0 127 c.

(** [s.lower()] on the letters A-Z. *)
Definition lower_char (c : ascii) : ascii :=
  if is_upper c then ascii_of_N (N_of_ascii c + 32) else c.

Fixpoint lower (s : string) : string :=
  match s with
  | EmptyString => EmptyString
  | String a s' => String (lower_char a) (lower s')
  end.

Fixpoint all_chars (p : ascii -> bool) (s : string) : bool :=
  match s with
  | EmptyString => true
  | String a s' => p a && all_chars p s'
  end.

End PyStr.

(** ** [posixpath] *)

Module PosixPath.
Import PyStr.

Definition sep : ascii := "/"%char.
Definition extsep : ascii := "."%char.

(** [isabs(p)]: [p.startswith('/')]. *)
Definition isabs (p : string) : bool := startswith "/" p.

(** One round of the loop of [join(a, *p)] for the component [b]. *)
Definition join_step (path b : string) : string :=
  if startswith "/" b then b
  else if (path =? "") || endswith sep path then path ++ b
  else path ++ "/" ++ b.

(** [os.path.join(a, *p)]. *)
Definition join (a : string) (p : list string) : string :=
  fold_left join_step p a.

(** [os.path.basename(p)]: [i = p.rfind('/') + 1; return p[i:]]. *)
Definition basename (p : string) : string :=
  let i := (rfind sep p + 1)%Z in slice_from i p.

(** The [while filenameIndex < dotIndex] loop of [genericpath._splitext];
    [n] counts the rounds that are left, [dotIndex - filenameIndex].
    [None] when the loop ends without a [return]. *)
Fixpoint splitext_loop (n : nat) (filenameIndex dotIndex : Z) (p : string)
  : option (string * string) :=
  match n with
  | O => None
  | S n' =>
      if negb (take 1 (slice_from filenameIndex p) =? String extsep "")
      then Some (slice_to dotIndex p, slice_from dotIndex p)
      else splitext_loop n' (filenameIndex + 1) dotIndex p
  end.

(** [os.path.splitext(p)], that is [genericpath._splitext(p, '/', None, '.')]. *)
Definition splitext (p : string) : string * string :=
  let sepIndex := rfind sep p in
  let dotIndex := rfind extsep p in
  let no_ext := (p, EmptyString) in
  if (dotIndex >? sepIndex)%Z then
    let filenameIndex := (sepIndex + 1)%Z in
    match splitext_loop (Z.to_nat (dotIndex - filenameIndex))
                        filenameIndex dotIndex p with
    | Some r => r
    | None => no_ext
    end
  else no_ext.

Definition is_nil {A} (l : list A) : bool :=
  match l with [] => true | _ => false end.

(** One round of the loop of [normpath] over the components. *)
Definition normpath_step (initial_slashes : Z) (new_comps : list string)
  (comp : string) : list string :=
  if (comp =? "") || (comp =? ".") then new_comps
  else if negb (comp =? "..")
          || ((initial_slashes =? 0)%Z && is_nil new_comps)
          || (negb (is_nil new_comps) && (last new_comps "" =? ".."))
       then new_comps ++ [comp]
  else if negb (is_nil new_comps) then removelast new_comps
  else new_comps.

Definition slashes (n : Z) : string :=
  String.concat "" (repeat "/" (Z.to_nat n)).

(** [os.path.normpath(path)]. *)
Definition normpath (path : string) : string :=
  if path =? "" then "."
  else
    let initial_slashes :=
      if startswith "/" path then
        if startswith "//" path && negb (startswith "///" path)
        then 2%Z else 1%Z
      else 0%Z in
    let comps :=
      fold_left (normpath_step initial_slashes) (split sep path) [] in
    let path := PyStr.join "/" comps in
    let path :=
      if (initial_slashes =? 0)%Z then path
      else slashes initial_slashes ++ path in
    if path =? "" then "." else path.

(** [os.path.abspath(path)] in the working directory [cwd] ([os.getcwd()]). *)
Definition abspath (cwd path : string) : string :=
  let path := if negb (isabs path) then join cwd [path] else path in
  normpath path.

End PosixPath.

(** ** [urllib.parse] *)

Module UrlParse.
Import PyStr.

Record SplitResult := mkSplit {
  s_scheme : string; s_netloc : string; s_path : string;
  s_query : string; s_fragment : string }.

Record ParseResult := mkParse {
  scheme : string; netloc : string; path : string;
  params : string; query : string; fragment : string }.

Definition uses_params : list string :=
  [""; "ftp"; "hdl"; "prospero"; "http"; "imap"; "https"; "shttp"; "rtsp";
   "rtspu"; "sip"; "sips"; "mms"; "sftp"; "tel"].

(** [c in scheme_chars]: letters, digits and [+-.]. *)
Definition scheme_char (c : ascii) : bool :=
  is_lower c || is_upper c || is_digit c
  || Ascii.eqb c "+"%char || Ascii.eqb c "-"%char || Ascii.eqb c "."%char.

(** [c in _WHATWG_C0_CONTROL_OR_SPACE]: code 0 to 32. *)
Definition c0_control_or_space (c : ascii) : bool := in_range 0 32 c.

(** [_splitnetloc(url, 2)]: the netloc ends at the first of [/?#] found
    from index 2 on. *)
Definition splitnetloc (url : string) : string * string :=
  let start := 2%Z in
  let upd (c : ascii) (delim : Z) :=
    let wdelim := find_from c start url in
    if (wdelim >=? 0)%Z then Z.min delim wdelim else delim in
  let delim := upd "#"%char (upd "?"%char (upd "/"%char (len url))) in
  (slice_from start (slice_to delim url), slice_from delim url).

Section Netloc.

(** The two checks of [urlsplit] that consult tables of the standard library
    ([ipaddress] for a bracketed host, [unicodedata] for a netloc with
    characters outside ASCII) are a parameter: [true] when the check passes. *)
Variable netloc_valid : string -> bool.

(** [urlsplit(url)]; [None] stands for [ValueError]. *)
Definition urlsplit (url : string) : option SplitResult :=
  let url := lstrip c0_control_or_space url in
  let url := remove LF (remove CR (remove TAB url)) in
  let i := find ":"%char url in
  let '(scheme, url) :=
    if (i >? 0)%Z
       && all_chars (fun c => is_ascii c && is_alpha c) (take 1 url)
       && all_chars scheme_char (slice_to i url)
    then (lower (slice_to i url), slice_from (i + 1) url)
    else (EmptyString, url) in
  let '(netloc, url) :=
    if take 2 url =? "//" then splitnetloc url else (EmptyString, url) in
  let has_open := contains "["%char netloc in
  let has_close := contains "]"%char netloc in
  if (has_open && negb has_close) || (has_close && negb has_open) then None
  else if has_open && has_close && negb (netloc_valid netloc) then None
  else
    let '(url, fragment) :=
      if contains "#"%char url then split_once "#"%char url else (url, EmptyString) in
    let '(url, query) :=
      if contains "?"%char url then split_once "?"%char url else (url, EmptyString) in
    if negb (netloc =? "") && negb (all_chars is_ascii netloc)
       && negb (netloc_valid netloc) then None
    else Some (mkSplit scheme netloc url query fragment).

(** [_splitparams(url)]. *)
Definition splitparams (url : string) : string * string :=
  if contains "/"%char url then
    let i := find_from ";"%char (rfind "/"%char url) url in
    if (i <? 0)%Z then (url, EmptyString)
    else (slice_to i url, slice_from (i + 1) url)
  else
    let i := find ";"%char url in
    (slice_to i url, slice_from (i + 1) url).

(** [urlparse(url)]; [None] stands for [ValueError]. *)
Definition urlparse (url : string) : option ParseResult :=
  match urlsplit url with
  | None => None
  | Some r =>
      let '(url, params) :=
        if existsb (String.eqb (s_scheme r)) uses_params
           && contains ";"%char (s_path r)
        then splitparams (s_path r)
        else (s_path r, EmptyString) in
      Some (mkParse (s_scheme r) (s_netloc r) url params
                    (s_query r) (s_fragment r))
  end.

End Netloc.

End UrlParse.

(** ** [email.message_from_string]: the header block *)

Module Email.
Import PyStr.

(** Lines of a text, line ends kept; a line ends at [\r\n], [\r] or [\n]
    (the [readlines] of a [StringIO(newline='')], as [BufferedSubFile]
    cracks its input). *)
Fixpoint readlines (s : string) : list string :=
  match s with
  | EmptyString => []
  | String c s' =>
      if Ascii.eqb c LF then String c "" :: readlines s'
      else if Ascii.eqb c CR then
        match s' with
        | String c' s'' =>
            if Ascii.eqb c' LF then String c (String c' "") :: readlines s''
            else String c "" :: readlines s'
        | EmptyString => [String c ""]
        end
      else
        match readlines s' with
        | l :: ls => String c l :: ls
        | [] => [String c ""]
        end
  end.

(** [ftext]: the characters of a field name, [\041-\071\073-\176]. *)
Definition ftext (c : ascii) : bool := in_range 33 57 c || in_range 59 126 c.

(** [[\041-\071\073-\176]*:] at the start of the line. *)
Fixpoint field_name_colon (line : string) : bool :=
  match line with
  | EmptyString => false
  | String c rest =>
      if Ascii.eqb c ":"%char then true
      else if ftext c then field_name_colon rest else false
  end.

Definition starts_with_wsp (line : string) : bool :=
  match line with
  | String c _ => Ascii.eqb c SP || Ascii.eqb c TAB
  | EmptyString => false
  end.

(** [headerRE.match(line)] for [^(From |[\041-\071\073-\176]*:|[\t ])]. *)
Definition headerRE_match (line : string) : bool :=
  startswith "From " line || field_name_colon line || starts_with_wsp line.

(** The lines [_parsegen] collects as headers: up to the first line that
    does not match [headerRE]. *)
Fixpoint header_lines (lines : list string) : list string :=
  match lines with
  | [] => []
  | line :: rest =>
      if headerRE_match line then line :: header_lines rest else []
  end.

Definition is_crlf (c : ascii) : bool := Ascii.eqb c CR || Ascii.eqb c LF.
Definition is_wsp (c : ascii) : bool := Ascii.eqb c SP || Ascii.eqb c TAB.

(** [Compat32.header_source_parse(sourcelines)]. *)
Definition header_source_parse (sourcelines : list string) : string * string :=
  match sourcelines with
  | [] => (EmptyString, EmptyString)
  | first :: more =>
      let '(name, value) := split_once ":"%char first in
      let value := lstrip is_wsp value ++ String.concat "" more in
      (name, rstrip is_crlf value)
  end.

(** The loop of [FeedParser._parse_headers(lines)]: [total] is [len(lines)],
    [lineno] the index of the head of [lines]; [headers] collects what
    [set_raw] stores. *)
Fixpoint parse_headers_loop (total lineno : nat) (lines : list string)
  (lastheader : string) (lastvalue : list string)
  (headers : list (string * string)) : list (string * string) :=
  match lines with
  | [] =>
      if negb (lastheader =? "")
      then (headers ++ [header_source_parse lastvalue])%list else headers
  | line :: rest =>
      if starts_with_wsp line then
        if lastheader =? "" then
          parse_headers_loop total (S lineno) rest lastheader lastvalue headers
        else
          parse_headers_loop total (S lineno) rest lastheader
                             (lastvalue ++ [line])%list headers
      else
        let headers :=
          if negb (lastheader =? "")
          then (headers ++ [header_source_parse lastvalue])%list else headers in
        if startswith "From " line then
          if Nat.eqb lineno 0 then
            parse_headers_loop total (S lineno) rest "" [] headers
          else if Nat.eqb lineno (total - 1) then headers
          else parse_headers_loop total (S lineno) rest "" [] headers
        else
          let i := find ":"%char line in
          if (i =? 0)%Z then
            parse_headers_loop total (S lineno) rest "" [] headers
          else
            parse_headers_loop total (S lineno) rest (slice_to i line) [line]
                               headers
  end.

(** [message_from_string(text).items()]: the header fields of the message,
    in order, as (name, value) pairs. *)
Definition message_from_string_items (text : string) : list (string * string) :=
  let lines := header_lines (readlines text) in
  parse_headers_loop (List.length lines) 0 lines "" [] [].

End Email.

(** ** Python [dict] built from a list of pairs *)

Module PyDict.

(** [dict(items).get(key, default)]: a later pair replaces an earlier one
    with the same key. *)
Fixpoint get (key default : string) (items : list (string * string)) : string :=
  match items with
  | [] => default
  | (k, v) :: rest => get key (if k =? key then v else default) rest
  end.

End PyDict.

(** ** [re.findall("filename=(.+)", text)] *)

Module Re.
Import PyStr.

(** The longest prefix without a line feed ([.] matches every character
    but [\n]) and what follows it. *)
Fixpoint dot_plus (s : string) : string * string :=
  match s with
  | EmptyString => (EmptyString, EmptyString)
  | String c s' =>
      if Ascii.eqb c LF then (EmptyString, s)
      else let '(g, rest) := dot_plus s' in (String c g, rest)
  end.

(** A match of [filename=(.+)] that starts at the head of [s]: the group
    and the text after the match. *)
Definition match_at (s : string) : option (string * string) :=
  if startswith "filename=" s then
    let '(g, rest) := dot_plus (drop 9 s) in
    if g =? "" then None else Some (g, rest)
  else None.

(** Scan from left to right; after a match the scan resumes behind it.
    Every round consumes a character, so [fuel] above the length of [s]
    is never used up. *)
Fixpoint findall_from (fuel : nat) (s : string) : list string :=
  match fuel with
  | O => []
  | S fuel' =>
      match match_at s with
      | Some (g, rest) => g :: findall_from fuel' rest
      | None =>
          match s with
          | EmptyString => []
          | String _ s' => findall_from fuel' s'
          end
      end
  end.

Definition findall_filename (text : string) : list string :=
  findall_from (S (String.length text)) text.

End Re.

(** ** Exceptions, responses, effects *)

(** The exception classes the code tells apart: [except] clauses and
    [backoff] catch [requests.exceptions.RequestException] (with its
    subclasses: connection errors, timeouts, [HTTPError]); everything else
    propagates. *)
Inductive exn : Type :=
| RequestException (what : string)
| OSError (what : string)
| ValueError (what : string)
| BadZipFile (what : string)
| OtherException (what : string).

Definition is_RequestException (e : exn) : bool :=
  match e with RequestException _ => true | _ => false end.

Definition exn_str (e : exn) : string :=
  match e with
  | RequestException w | OSError w | ValueError w | BadZipFile w
  | OtherException w => w
  end.

(** A [requests.Response]: [headers] is a case-insensitive dictionary, kept
    as the list of its (name, value) items. *)
Record Response : Type := mkResponse {
  status_code : Z;
  headers : list (string * string);
  content : list byte }.

(** [headers.get(name)]: lookup ignores the case of the name. *)
Fixpoint headers_get (name : string) (h : list (string * string))
  : option string :=
  match h with
  | [] => None
  | (k, v) :: rest =>
      if PyStr.lower k =? PyStr.lower name then Some v
      else headers_get name rest
  end.

(** [name in headers.keys()]. *)
Definition headers_contains (name : string) (h : list (string * string))
  : bool :=
  match headers_get name h with Some _ => true | None => false end.

(** What a call does to the outside world, in the order it does it. *)
Inductive event : Type :=
| Makedirs (path : string)                    (* os.makedirs(path, exist_ok=True) *)
| Get (url : string) (timeout : Z)            (* requests.get(url, timeout=...) *)
| Sleep                                       (* the wait of backoff before a retry *)
| Print (text : string)
| WriteFile (path : string) (data : list byte) (* open(path, 'wb') and write(data) *)
| ExtractAll (archive dest : string).         (* ZipFile(archive).extractall(dest) *)

Definition trace : Type := list event.

Definition is_Get (e : event) : bool :=
  match e with Get _ _ => true | _ => false end.

Definition is_WriteFile (e : event) : bool :=
  match e with WriteFile _ _ => true | _ => false end.

(** Number of GET requests in a trace. *)
Definition gets (t : trace) : nat := List.length (filter is_Get t).

(** Number of files written in a trace. *)
Definition writes (t : trace) : nat := List.length (filter is_WriteFile t).

(** The outside world as one thread of control meets it.  [requests_get n url]
    is the outcome of the GET that the thread issues after [n] earlier ones;
    the [_error] fields say which file system calls raise. *)
Record Env : Type := mkEnv {
  requests_get : nat -> string -> exn + Response;
  uuid4 : string;
  getcwd : string;
  makedirs_error : string -> option exn;
  write_error : string -> option exn;
  extractall_error : string -> string -> option exn;
  netloc_valid : string -> bool }.

(** Computations that append to the trace and return or raise. *)
Definition IO (A : Type) : Type := trace -> (exn + A) * trace.

Definition ret {A} (a : A) : IO A := fun t => (inr a, t).

Definition raise {A} (e : exn) : IO A := fun t => (inl e, t).

Definition bind {A B} (c : IO A) (k : A -> IO B) : IO B :=
  fun t =>
    match c t with
    | (inl e, t') => (inl e, t')
    | (inr a, t') => k a t'
    end.

Definition emit (e : event) : IO unit := fun t => (inr tt, (t ++ [e])%list).

(** [try: body  except <class> as err: handler(err)] *)
Definition try_except {A} (body : IO A) (catches : exn -> bool)
  (handler : exn -> IO A) : IO A :=
  fun t =>
    match body t with
    | (inl e, t') => if catches e then handler e t' else (inl e, t')
    | r => r
    end.

Declare Scope io_scope.
Delimit Scope io_scope with io.
Notation "x <- c ;; k" := (bind c (fun x => k))
  (at level 61, c at next level, right associativity) : io_scope.
Notation "' pat <- c ;; k" := (bind c (fun x => match x with pat => k end))
  (at level 61, pat pattern, c at next level, right associativity) : io_scope.
Notation "c ;; k" := (bind c (fun _ => k))
  (at level 61, right associativity) : io_scope.
Open Scope io_scope.

Definition check (err : option exn) : IO unit :=
  match err with Some e => raise e | None => ret tt end.

Section Primitives.

Variable env : Env.

Definition os_makedirs (path : string) : IO unit :=
  emit (Makedirs path) ;; check (makedirs_error env path).

Definition http_get (url : string) (timeout : Z) : IO Response :=
  fun t => (requests_get env (gets t) url, (t ++ [Get url timeout])%list).

Definition write_file (path : string) (data : list byte) : IO unit :=
  emit (WriteFile path data) ;; check (write_error env path).

Definition zip_extractall (archive dest : string) : IO unit :=
  emit (ExtractAll archive dest) ;; check (extractall_error env archive dest).

Definition os_path_abspath (path : string) : string :=
  PosixPath.abspath (getcwd env) path.

End Primitives.

(** [response.raise_for_status()]: [HTTPError] for a status from 400 to 599.
    Of the message, which [requests] builds from the status, the reason
    phrase and the URL, only the class part is kept; the code does no more
    with it than print it. *)
Definition raise_for_status (response : Response) : IO unit :=
  let s := status_code response in
  if (400 <=? s)%Z && (s <? 500)%Z then raise (RequestException "Client Error")
  else if (500 <=? s)%Z && (s <? 600)%Z then raise (RequestException "Server Error")
  else ret tt.

(** [@backoff.on_exception(backoff.expo, RequestException, max_tries=...)]:
    [retries] is [max_tries - tries], the attempts that may still follow the
    next one.  An exception of the last attempt, or of another class, is
    raised again. *)
Fixpoint on_exception {A} (retries : nat) (target : IO A) : IO A :=
  match retries with
  | O => target
  | S retries' =>
      try_except target is_RequestException
        (fun _ => emit Sleep ;; on_exception retries' target)
  end.

Definition max_tries : nat := 3.

(** ** [download_files_from_urls] *)

Section Batch.

Variable env : Env.
Variable download_directory : string.

(** The f-string [{content_disposition}]. *)
Definition fmt (v : option string) : string :=
  match v with Some s => s | None => "None" end.

(** Truth value of [content_disposition]: [None] and [''] are false. *)
Definition truthy (v : option string) : bool :=
  match v with Some s => negb (s =? "") | None => false end.

(** The body of the inner function [download_file], one attempt. *)
Definition download_file_once (url : string) : IO (list byte * string) :=
  response <- http_get env url 5 ;;
  raise_for_status response ;;
  let content_disposition := headers_get "Content-Disposition" (headers response) in
  let msg := Email.message_from_string_items
               ("Content-Disposition: " ++ fmt content_disposition) in
  let params := if truthy content_disposition then msg else [] in
  let file_extension := snd (PosixPath.splitext (PyDict.get "filename" "" params)) in
  ret (content response, file_extension).

(** [download_file] as decorated. *)
Definition download_file (url : string) : IO (list byte * string) :=
  on_exception (max_tries - 1) (download_file_once url).

Definition download_file_to_path (url : option string) : IO (option string) :=
  match url with
  | None => ret None
  | Some url =>
      r <- try_except
             (d <- download_file url ;; ret (Some d))
             is_RequestException
             (fun err =>
                emit (Print ("Failed to download " ++ url ++ ": " ++ exn_str err)) ;;
                ret None) ;;
      match r with
      | None => ret None
      | Some (file_data, file_extension) =>
          let file_name := uuid4 env ++ file_extension in
          let output_file_path := PosixPath.join download_directory [file_name] in
          write_file env output_file_path file_data ;;
          ret (Some (os_path_abspath env output_file_path))
      end
  end.

End Batch.

(** The [urls] argument: one URL or a list whose entries may be [None]. *)
Inductive urls_arg : Type :=
| OneUrl (url : string)
| UrlList (urls : list (option string)).

(** [if isinstance(urls, str): urls = [urls]] *)
Definition as_list (urls : urls_arg) : list (option string) :=
  match urls with
  | OneUrl u => [Some u]
  | UrlList l => l
  end.

(** The world of a batch call: the calling thread and, for every index of
    the input, the thread that runs that task.  The tasks run concurrently;
    each meets the world through an environment of its own, so no order
    between requests of different tasks is assumed. *)
Record World : Type := mkWorld {
  main_env : Env;
  task_env : nat -> Env }.

(** [list(executor.map(f, urls))] with the task of index [k] first: results
    in input order, each with the trace of its task; the first exception in
    input order is raised again. *)
Fixpoint executor_map (f : Env -> option string -> IO (option string))
  (envs : nat -> Env) (k : nat) (urls : list (option string))
  : exn + list (option string * trace) :=
  match urls with
  | [] => inr []
  | u :: rest =>
      match f (envs k) u [] with
      | (inl e, _) => inl e
      | (inr r, t) =>
          match executor_map f envs (S k) rest with
          | inl e => inl e
          | inr rs => inr ((r, t) :: rs)
          end
      end
  end.

(** What a batch call amounts to: an exception, or the returned list with
    the trace of the calling thread and the trace of every task. *)
Inductive batch_outcome : Type :=
| BatchRaised (e : exn)
| BatchReturned (downloaded_files : list (option string))
                (main : trace) (tasks : list trace).

Definition download_files_from_urls (w : World) (job_id : string)
  (urls : urls_arg) : batch_outcome :=
  let download_directory :=
    os_path_abspath (main_env w)
      (PosixPath.join "jobs" [job_id; "downloaded_files"]) in
  match os_makedirs (main_env w) download_directory [] with
  | (inl e, _) => BatchRaised e
  | (inr _, main) =>
      let urls := as_list urls in
      match executor_map (fun env => download_file_to_path env download_directory)
                         (task_env w) 0 urls with
      | inl e => BatchRaised e
      | inr rs => BatchReturned (map fst rs) main (map snd rs)
      end
  end.

(** ** [file] *)

(** The dictionary [file] returns. *)
Record DownloadedFile : Type := mkDownloadedFile {
  file_path : string;
  type : string;
  original_name : string;
  extracted_path : option string }.

Section Single.

Variable env : Env.

Definition file (file_url : string) : IO DownloadedFile :=
  os_makedirs env "job_files" ;;
  download_response <- http_get env file_url 30 ;;
  (* [headers["Content-Disposition"]] is read only when the key is there,
     so [fmt] gives the value itself. *)
  let found :=
    if headers_contains "Content-Disposition" (headers download_response)
    then Re.findall_filename
           (fmt (headers_get "Content-Disposition" (headers download_response)))
    else [] in
  original_file_name <-
    match found with
    | first :: _ => ret first
    | [] =>
        match UrlParse.urlparse (netloc_valid env) file_url with
        | None => raise (ValueError "urlparse")
        | Some parsed =>
            let download_path := UrlParse.path parsed in
            ret (PosixPath.basename download_path)
        end
    end ;;
  let file_type := PyStr.remove "." (snd (PosixPath.splitext original_file_name)) in
  let file_name := uuid4 env in
  let output_file_path := PosixPath.join "job_files" [file_name ++ "." ++ file_type] in
  write_file env output_file_path (content download_response) ;;
  unziped_directory <-
    (if file_type =? "zip" then
       let unziped_directory := PosixPath.join "job_files" [file_name] in
       os_makedirs env unziped_directory ;;
       zip_extractall env output_file_path unziped_directory ;;
       ret (Some (os_path_abspath env unziped_directory))
     else ret None) ;;
  ret {| file_path := os_path_abspath env output_file_path;
         type := file_type;
         original_name := original_file_name;
         extracted_path := unziped_directory |}.

End Single.

(** ** Sample worlds *)

Module Samples.

Definition DQUOTE : ascii := "034"%char.

Definition sample_uuid : string := "123e4567-e89b-12d3-a456-426614174000".

Definition body : list byte := [x68; x69].

(** A world whose file system never fails and whose GETs are answered by
    [get]; the working directory is [/srv/worker]. *)
Definition env_of (get : nat -> string -> exn + Response) : Env :=
  {| requests_get := get;
     uuid4 := sample_uuid;
     getcwd := "/srv/worker";
     makedirs_error := fun _ => None;
     write_error := fun _ => None;
     extractall_error := fun _ _ => None;
     netloc_valid := fun _ => true |}.

Definition respond (status : Z) (h : list (string * string)) : Env :=
  env_of (fun _ _ => inr (mkResponse status h body)).

(** [attachment; filename="data.json"] *)
Definition quoted_json : string :=
  "attachment; filename=" ++ String DQUOTE ("data.json" ++ String DQUOTE "").

Definition env_plain : Env := respond 200 [].
Definition env_quoted : Env := respond 200 [("Content-Disposition", quoted_json)].
Definition env_bare_zip : Env :=
  respond 200 [("content-disposition", "attachment; filename=bundle.zip")].
Definition env_404 : Env := respond 404 [].
Definition env_down : Env :=
  env_of (fun _ _ => inl (RequestException "Connection refused")).

(** Fails twice, then answers. *)
Definition env_flaky : Env :=
  env_of (fun n _ => if Nat.ltb n 2 then inl (RequestException "Read timed out")
                     else inr (mkResponse 200 [] body)).

(** [requests.get] raises something that is not a [RequestException]. *)
Definition env_crash : Env :=
  env_of (fun _ _ => inl (OtherException "unexpected")).

(** A zip by its name whose extraction fails. *)
Definition env_bad_zip : Env :=
  {| requests_get := fun _ _ =>
       inr (mkResponse 200
              [("Content-Disposition", "attachment; filename=bundle.zip")] body);
     uuid4 := sample_uuid;
     getcwd := "/srv/worker";
     makedirs_error := fun _ => None;
     write_error := fun _ => None;
     extractall_error := fun _ _ => Some (BadZipFile "File is not a zip file");
     netloc_valid := fun _ => true |}.

Definition sample_world : World :=
  {| main_env := env_plain;
     task_env := fun k =>
       match k with
       | 0 => env_quoted
       | 1 => env_down
       | 2 => env_plain
       | 3 => env_404
       | _ => env_flaky
       end |}.

(** A world whose tasks 1, 2, ... raise, each something else. *)
Definition crash_world : World :=
  {| main_env := env_plain;
     task_env := fun k =>
       match k with
       | 0 => env_plain
       | 1 => env_crash
       | _ => env_of (fun _ _ => inl (ValueError "later"))
       end |}.

Definition sample_urls : list (option string) :=
  [Some "http://x/a"; Some "http://x/b"; None; Some "http://x/c"; Some "http://x/d"].

End Samples.


(** ** Specification-side definitions *)

(** The list [l] with the entry of index [i] replaced by [x]. *)
Fixpoint list_set {A} (i : nat) (x : A) (l : list A) : list A :=
  match l, i with
  | [], _ => []
  | _ :: l', O => x :: l'
  | a :: l', S i' => a :: list_set i' x l'
  end.

(** The [n]-th GET of a task for [url] fails the way [download_file]
    retries: [requests.get] raises a [RequestException], or the status of
    the response makes [raise_for_status] raise. *)
Definition attempt_fails (env : Env) (n : nat) (url : string) : bool :=
  match requests_get env n url with
  | inl e => is_RequestException e
  | inr r => (400 <=? status_code r)%Z && (status_code r <? 600)%Z
  end.

(** [requests.get] raises nothing but [RequestException]s. *)
Definition only_request_errors (env : Env) : Prop :=
  forall n url e, requests_get env n url = inl e -> is_RequestException e = true.

(** Writing a file never fails. *)
Definition writes_succeed (env : Env) : Prop :=
  forall p, write_error env p = None.

(** The directory a batch call for [job_id] downloads into. *)
Definition batch_directory (w : World) (job_id : string) : string :=
  os_path_abspath (main_env w) (PosixPath.join "jobs" [job_id; "downloaded_files"]).

(** The task of index [i] of a batch call, run on [url] by itself. *)
Definition run_task (w : World) (job_id : string) (i : nat) (url : option string)
  : (exn + option string) * trace :=
  download_file_to_path (task_env w i) (batch_directory w job_id) url [].

(** The matches of [filename=(.+)] that [file] finds in the headers of a
    response. *)
Definition header_matches (resp : Response) : list string :=
  if headers_contains "Content-Disposition" (headers resp)
  then Re.findall_filename (fmt (headers_get "Content-Disposition" (headers resp)))
  else [].

(** The last path segment of a path, in the words of the specification:
    the last of the pieces between slashes. *)
Definition last_path_segment (path : string) : string :=
  last (PyStr.split "/" path) "".

(** [type] as the specification words it: the lowercase form of the
    extension of the name, its dot removed. *)
Definition lowercase_extension (name : string) : string :=
  PyStr.lower (PyStr.remove "." (snd (PosixPath.splitext name))).


(** A header value without carriage return or line feed, as one line of
    a response carries it. *)
Definition single_line (v : string) : bool :=
  PyStr.all_chars (fun c => negb (Email.is_crlf c)) v.

Definition is_Sleep (e : event) : bool :=
  match e with Sleep => true | _ => false end.

(** Number of waits between attempts in a trace. *)
Definition sleeps (t : trace) : nat := List.length (filter is_Sleep t).

Definition is_ExtractAll (e : event) : bool :=
  match e with ExtractAll _ _ => true | _ => false end.

(** The status of a response does not make [raise_for_status] raise. *)
Definition status_passes (resp : Response) : bool :=
  negb ((400 <=? status_code resp)%Z && (status_code resp <? 600)%Z).

(** The name [file] settles on for a response: the first match in the
    header, else the base name of the path of the URL; [None] when
    [urlparse] raises. *)
Definition determined_name (env : Env) (url : string) (resp : Response)
  : option string :=
  match header_matches resp with
  | first :: _ => Some first
  | [] =>
      match UrlParse.urlparse (netloc_valid env) url with
      | Some parsed => Some (PosixPath.basename (UrlParse.path parsed))
      | None => None
      end
  end.

(** The text of [s] before its first [c]; all of [s] when it has none. *)
Definition before_first (c : ascii) (s : string) : string :=
  hd "" (PyStr.split c s).

(** An http or https URL by its parts, as RFC 3986 writes it:
    [scheme://authority path ?query #fragment], the last two optional. *)
Record UrlParts : Type := mkUrlParts {
  u_scheme : string;
  u_authority : string;
  u_path : string;
  u_query : option string;
  u_fragment : option string }.

(** An optional part with the mark that introduces it. *)
Definition opt_part (mark : ascii) (o : option string) : string :=
  match o with Some s => String mark s | None => "" end.

(** The URL as the text handed to [file]. *)
Definition url_text (u : UrlParts) : string :=
  u_scheme u ++ "://" ++ u_authority u ++ u_path u
  ++ opt_part "?" (u_query u) ++ opt_part "#" (u_fragment u).

(** None of [chars] occurs in [s]. *)
Definition lacks (chars : list ascii) (s : string) : bool :=
  forallb (fun c => negb (PyStr.contains c s)) chars.

(** The parts are those of an http or https URL: the authority ends at
    the path, the path is empty or starts with a slash and ends at the
    query, the query ends at the fragment; the authority is ASCII without
    brackets, and the text has no tab, carriage return or line feed. *)
Definition well_formed (u : UrlParts) : bool :=
  ((u_scheme u =? "http") || (u_scheme u =? "https"))
  && lacks ["/"; "?"; "#"; "["; "]"]%char (u_authority u)
  && PyStr.all_chars PyStr.is_ascii (u_authority u)
  && ((u_path u =? "") || PyStr.startswith "/" (u_path u))
  && lacks ["?"; "#"]%char (u_path u)
  && lacks ["#"%char] (opt_part "?" (u_query u))
  && lacks [PyStr.TAB; PyStr.CR; PyStr.LF] (url_text u).

(** [http://x/y/report.csv] and [http://x/y/report;v=2.csv]. *)
Definition report_csv : UrlParts :=
  mkUrlParts "http" "x" "/y/report.csv" None None.
Definition report_params : UrlParts :=
  mkUrlParts "http" "x" "/y/report;v=2.csv" None None.

(** The text after the authority is empty or starts with a delimiter. *)
Definition starts_with_delimiter (r : string) : Prop :=
  r = "" \/ PyStr.find "/" r = 0%Z \/ PyStr.find "?" r = 0%Z
  \/ PyStr.find "#" r = 0%Z.

Import Samples.

(** ** Traces *)

Lemma gets_app (t u : trace) : gets (t ++ u)%list = gets t + gets u.
Proof. unfold gets. now rewrite filter_app, length_app. Qed.

Lemma writes_app (t u : trace) : writes (t ++ u)%list = writes t + writes u.
Proof. unfold writes. now rewrite filter_app, length_app. Qed.

(** ** One attempt and the retry loop *)

Lemma raise_for_status_raises (r : Response) (t : trace) :
  (400 <=? status_code r)%Z && (status_code r <? 600)%Z = true ->
  exists e, raise_for_status r t = (inl e, t) /\ is_RequestException e = true.
Proof.
  intros H. unfold raise_for_status.
  destruct ((400 <=? status_code r)%Z && (status_code r <? 500)%Z) eqn:E1.
  - eexists; split; reflexivity.
  - destruct ((500 <=? status_code r)%Z && (status_code r <? 600)%Z) eqn:E2.
    + eexists; split; reflexivity.
    + exfalso.
      apply andb_true_iff in H as [Ha Hb].
      apply andb_false_iff in E1. apply andb_false_iff in E2.
      rewrite Z.leb_le in Ha. rewrite Z.ltb_lt in Hb.
      rewrite !Z.leb_gt, !Z.ltb_ge in *. lia.
Qed.

Lemma raise_for_status_cases (r : Response) (t : trace) :
  raise_for_status r t = (inr tt, t)
  \/ exists e, raise_for_status r t = (inl e, t) /\ is_RequestException e = true.
Proof.
  unfold raise_for_status.
  destruct (_ && _); [right; eexists; split; reflexivity|].
  destruct (_ && _); [right; eexists; split; reflexivity|].
  now left.
Qed.

(** A failing attempt raises a [RequestException] after its GET and does
    nothing else. *)
Lemma download_file_once_fails (env : Env) (url : string) (t : trace) :
  attempt_fails env (gets t) url = true ->
  exists e, download_file_once env url t = (inl e, (t ++ [Get url 5])%list)
            /\ is_RequestException e = true.
Proof.
  unfold attempt_fails, download_file_once, bind, http_get.
  destruct (requests_get env (gets t) url) as [e|r]; intros H.
  - exists e. now split.
  - destruct (raise_for_status_raises r (t ++ [Get url 5])%list H) as (e & -> & He).
    exists e. now split.
Qed.

(** Whatever one attempt raises in a world where [requests.get] raises
    only [RequestException]s is a [RequestException]. *)
Lemma download_file_once_raises (env : Env) (url : string) (t t' : trace) (e : exn) :
  only_request_errors env ->
  download_file_once env url t = (inl e, t') -> is_RequestException e = true.
Proof.
  intros Hreq. unfold download_file_once, bind, http_get.
  destruct (requests_get env (gets t) url) as [e0|r] eqn:G.
  - intros [= <- _]. eauto.
  - destruct (raise_for_status_cases r (t ++ [Get url 5])%list) as [-> | (e1 & -> & He1)].
    + discriminate.
    + now intros [= <- _].
Qed.

Lemma on_exception_raises {A} (P : exn -> Prop) (target : IO A) (retries : nat) :
  (forall t e t', target t = (inl e, t') -> P e) ->
  forall t e t', on_exception retries target t = (inl e, t') -> P e.
Proof.
  intros Htarget. induction retries as [|n IH]; simpl; intros t e t'.
  - apply Htarget.
  - unfold try_except. destruct (target t) as [[e0|a] t0] eqn:T.
    + destruct (is_RequestException e0).
      * unfold bind, emit. apply IH.
      * intros [= <- _]. eapply Htarget, T.
    + discriminate.
Qed.

(** When every attempt that the budget allows fails, the decorated function
    raises a [RequestException] after [retries + 1] GETs, without a write. *)
Lemma on_exception_exhausted (env : Env) (url : string) (retries : nat) :
  forall t,
    (forall n, gets t <= n < gets t + S retries -> attempt_fails env n url = true) ->
    exists e t',
      on_exception retries (download_file_once env url) t = (inl e, t')
      /\ is_RequestException e = true
      /\ gets t' = gets t + S retries
      /\ writes t' = writes t.
Proof.
  induction retries as [|n IH]; intros t Hfail; simpl.
  - destruct (download_file_once_fails env url t) as (e & -> & He).
    { apply Hfail. lia. }
    exists e, (t ++ [Get url 5])%list.
    rewrite gets_app, writes_app. cbn. repeat split; auto; lia.
  - unfold try_except.
    destruct (download_file_once_fails env url t) as (e & -> & He).
    { apply Hfail. lia. }
    rewrite He. unfold bind, emit.
    destruct (IH ((t ++ [Get url 5]) ++ [Sleep])%list) as (e' & t' & -> & He' & Hg & Hw).
    { intros k Hk. apply Hfail. rewrite !gets_app in Hk. cbn in Hk. lia. }
    exists e', t'. rewrite !gets_app, !writes_app in *. cbn in *.
    repeat split; auto; lia.
Qed.

(** ** One task of a batch *)

Lemma download_file_to_path_None (env : Env) (dir : string) (t : trace) :
  download_file_to_path env dir None t = (inr None, t).
Proof. reflexivity. Qed.

(** A URL whose attempts all fail: the task returns [None] after
    [max_tries] GETs and writes nothing. *)
Lemma download_file_to_path_exhausted (env : Env) (dir url : string) :
  (forall n, n < max_tries -> attempt_fails env n url = true) ->
  exists t, download_file_to_path env dir (Some url) [] = (inr None, t)
            /\ writes t = 0 /\ gets t = max_tries.
Proof.
  intros Hfail.
  destruct (on_exception_exhausted env url (max_tries - 1) [])
    as (e & t' & Hrun & He & Hg & Hw).
  { intros n Hn. apply Hfail. unfold max_tries in *. cbn in Hn. lia. }
  unfold download_file_to_path, download_file, bind, try_except.
  rewrite Hrun, He. unfold emit, ret.
  eexists; split; [reflexivity|].
  rewrite writes_app, gets_app, Hg, Hw. cbn. split; reflexivity.
Qed.

(** A task raises only when a write fails or [requests.get] raises
    something that is not a [RequestException]. *)
Lemma download_file_to_path_returns (env : Env) (dir : string) (u : option string) :
  only_request_errors env -> writes_succeed env ->
  exists r t, download_file_to_path env dir u [] = (inr r, t).
Proof.
  intros Hreq Hwr. destruct u as [url|]; [|now exists None, []].
  unfold download_file_to_path, bind, try_except.
  destruct (download_file env url []) as [[e|[file_data file_extension]] t1] eqn:D.
  - assert (He : is_RequestException e = true).
    { eapply (on_exception_raises (fun e => is_RequestException e = true)); [|exact D].
      intros t0 e0 t0'. apply download_file_once_raises, Hreq. }
    rewrite He. unfold emit, ret. eexists _, _. reflexivity.
  - unfold ret, write_file, bind, emit, check. rewrite Hwr. eexists _, _. reflexivity.
Qed.

(** ** The order-preserving map over the tasks *)

Section ExecutorMap.

Variable f : Env -> option string -> IO (option string).
Variable envs : nat -> Env.

Lemma executor_map_length (urls : list (option string)) :
  forall k rs, executor_map f envs k urls = inr rs ->
               List.length rs = List.length urls.
Proof.
  induction urls as [|u rest IH]; simpl; intros k rs.
  - now intros [= <-].
  - destruct (f (envs k) u []) as [[e|r] t]; [discriminate|].
    destruct (executor_map f envs (S k) rest) as [e|rs'] eqn:E; [discriminate|].
    intros [= <-]. simpl. f_equal. eapply IH, E.
Qed.

Lemma executor_map_nth (urls : list (option string)) :
  forall k rs i u,
    executor_map f envs k urls = inr rs ->
    nth_error urls i = Some u ->
    exists r t, f (envs (k + i)) u [] = (inr r, t) /\ nth_error rs i = Some (r, t).
Proof.
  induction urls as [|u0 rest IH]; simpl; intros k rs i u.
  - intros _ H. now destruct i.
  - destruct (f (envs k) u0 []) as [[e|r] t] eqn:F; [discriminate|].
    destruct (executor_map f envs (S k) rest) as [e|rs'] eqn:E; [discriminate|].
    intros [= <-] Hi. destruct i as [|i]; simpl in Hi.
    + injection Hi as <-. rewrite Nat.add_0_r. now exists r, t.
    + rewrite Nat.add_succ_r. apply (IH (S k) rs' i u E Hi).
Qed.

Lemma executor_map_returns (urls : list (option string)) :
  forall k,
    (forall i u, nth_error urls i = Some u ->
                 exists r t, f (envs (k + i)) u [] = (inr r, t)) ->
    exists rs, executor_map f envs k urls = inr rs.
Proof.
  induction urls as [|u0 rest IH]; simpl; intros k Hall.
  - now exists [].
  - destruct (Hall 0 u0 eq_refl) as (r & t & F).
    rewrite Nat.add_0_r in F. rewrite F.
    destruct (IH (S k)) as (rs & ->).
    { intros i u Hi. replace (S k + i) with (k + S i) by lia. now apply (Hall (S i)). }
    now eexists.
Qed.

Hypothesis f_None : forall env, f env None [] = (inr None, []).

(** A task that returns [None] can be replaced by a null entry: the map
    raises the same exception or returns the same results, and the traces
    of the other tasks are the same. *)
Lemma executor_map_isolated (urls : list (option string)) :
  forall k i u t,
    nth_error urls i = Some u ->
    f (envs (k + i)) u [] = (inr None, t) ->
    match executor_map f envs k urls,
          executor_map f envs k (list_set i None urls) with
    | inl e, inl e' => e = e'
    | inr rs, inr rs' =>
        map fst rs = map fst rs'
        /\ nth_error (map fst rs) i = Some None
        /\ forall j, j <> i ->
             nth_error (map snd rs) j = nth_error (map snd rs') j
    | _, _ => False
    end.
Proof.
  induction urls as [|u0 rest IH]; intros k i u t Hi Hf.
  - now destruct i.
  - destruct i as [|i]; simpl in Hi |- *.
    + injection Hi as ->. rewrite Nat.add_0_r in Hf. rewrite Hf, f_None.
      destruct (executor_map f envs (S k) rest) as [e|rs]; [reflexivity|].
      simpl. repeat split; auto. intros [|j] Hj; [congruence | reflexivity].
    + destruct (f (envs k) u0 []) as [[e|r] t0]; [reflexivity|].
      rewrite Nat.add_succ_r in Hf.
      specialize (IH (S k) i u t Hi Hf).
      destruct (executor_map f envs (S k) rest) as [e|rs];
        destruct (executor_map f envs (S k) (list_set i None rest)) as [e'|rs'];
        try exact IH.
      destruct IH as (Hout & Hnone & Htr). simpl.
      repeat split; [now f_equal | exact Hnone |].
      intros [|j] Hj; [reflexivity | apply Htr; congruence].
Qed.

End ExecutorMap.

(** ** The batch call *)

Lemma download_files_from_urls_unfold (w : World) (job_id : string)
  (urls : urls_arg) :
  download_files_from_urls w job_id urls =
  match makedirs_error (main_env w) (batch_directory w job_id) with
  | Some e => BatchRaised e
  | None =>
      match executor_map (fun env => download_file_to_path env (batch_directory w job_id))
                         (task_env w) 0 (as_list urls) with
      | inl e => BatchRaised e
      | inr rs => BatchReturned (map fst rs)
                    [Makedirs (batch_directory w job_id)] (map snd rs)
      end
  end.
Proof.
  unfold download_files_from_urls, os_makedirs, bind, emit, check.
  fold (batch_directory w job_id).
  now destruct (makedirs_error (main_env w) (batch_directory w job_id)).
Qed.

(** What a returned list is made of: as many entries as the input has,
    the entry and the trace at index [i] being those of the task for the
    entry at index [i] of the input. *)
Lemma batch_returned (w : World) (job_id : string) (urls : list (option string))
  (out : list (option string)) (main : trace) (tasks : list trace) :
  download_files_from_urls w job_id (UrlList urls) = BatchReturned out main tasks ->
  List.length out = List.length urls
  /\ forall i u, nth_error urls i = Some u ->
       exists r t, run_task w job_id i u = (inr r, t)
                   /\ nth_error out i = Some r
                   /\ nth_error tasks i = Some t.
Proof.
  rewrite download_files_from_urls_unfold. simpl as_list.
  destruct (makedirs_error _ _); [discriminate|].
  destruct (executor_map _ _ 0 urls) as [e|rs] eqn:E; [discriminate|].
  intros [= <- _ <-]. split.
  - rewrite length_map. eapply executor_map_length, E.
  - intros i u Hi.
    destruct (executor_map_nth _ _ urls 0 rs i u E Hi) as (r & t & F & Hn).
    exists r, t. unfold run_task. simpl in F. rewrite F.
    rewrite !nth_error_map, Hn. now repeat split.
Qed.

(** When a batch call returns. *)
Lemma batch_returns (w : World) (job_id : string) (urls : list (option string)) :
  makedirs_error (main_env w) (batch_directory w job_id) = None ->
  (forall i, i < List.length urls ->
             only_request_errors (task_env w i) /\ writes_succeed (task_env w i)) ->
  exists out main tasks,
    download_files_from_urls w job_id (UrlList urls) = BatchReturned out main tasks.
Proof.
  rewrite download_files_from_urls_unfold. simpl as_list.
  intros -> Hok.
  destruct (executor_map_returns
              (fun env => download_file_to_path env (batch_directory w job_id))
              (task_env w) urls 0) as (rs & ->).
  - intros i u Hi. simpl.
    destruct (Hok i) as [Hreq Hwr].
    { apply nth_error_Some. congruence. }
    now apply download_file_to_path_returns.
  - now eexists _, _, _.
Qed.

(** C1. A batch call that returns gives a list as long as its input whose
    entry at index [i] is what the task for the URL at index [i] returned,
    and the call does return whatever number of downloads fail, as long as
    the download directory can be created, files can be written and
    [requests.get] raises nothing but [RequestException]s. *)
Theorem download_files_from_urls_length_and_order
  (w : World) (job_id : string) (urls : list (option string)) :
  (forall out main tasks,
      download_files_from_urls w job_id (UrlList urls) = BatchReturned out main tasks ->
      List.length out = List.length urls
      /\ forall i u, nth_error urls i = Some u ->
           exists r t, run_task w job_id i u = (inr r, t)
                       /\ nth_error out i = Some r
                       /\ nth_error tasks i = Some t)
  /\ (makedirs_error (main_env w) (batch_directory w job_id) = None ->
      (forall i, i < List.length urls ->
                 only_request_errors (task_env w i) /\ writes_succeed (task_env w i)) ->
      exists out main tasks,
        download_files_from_urls w job_id (UrlList urls) = BatchReturned out main tasks).
Proof.
  split.
  - intros out main tasks. apply batch_returned.
  - apply batch_returns.
Qed.

Lemma sample_world_sound (i : nat) :
  only_request_errors (task_env sample_world i)
  /\ writes_succeed (task_env sample_world i).
Proof.
  split; [|now destruct i as [|[|[|[|i]]]]].
  intros n url e.
  destruct i as [|[|[|[|i]]]];
    unfold sample_world, task_env, env_quoted, env_down, env_plain, env_404,
      env_flaky, respond, env_of, requests_get; try discriminate.
  - now intros [= <-].
  - destruct (Nat.ltb n 2); [now intros [= <-] | discriminate].
Qed.

Lemma download_files_from_urls_length_and_order_witness :
  exists out main tasks,
    download_files_from_urls sample_world "job7" (UrlList sample_urls)
    = BatchReturned out main tasks
    /\ List.length out = 5
    /\ nth_error out 1 = Some None.
Proof.
  destruct (download_files_from_urls_length_and_order
              sample_world "job7" sample_urls) as [Hret Htot].
  destruct Htot as (out & main & tasks & E).
  - reflexivity.
  - intros i _. apply sample_world_sound.
  - exists out, main, tasks. split; [exact E|].
    destruct (Hret out main tasks E) as [Hlen Hnth]. split; [exact Hlen|].
    destruct (Hnth 1 (Some "http://x/b") eq_refl) as (r & t & Hrun & Hout & _).
    vm_compute in Hrun. injection Hrun as <- _. exact Hout.
Defined.

(** C8. A null entry of the input yields [None] at the same index of the
    output, and its task performs no effect at all, hence no request: the
    task returns [None] with an empty trace, and every batch call that
    returns has [None] and the empty trace at that index. *)
Theorem null_slot_maps_to_null
  (w : World) (job_id : string) (urls : list (option string)) (i : nat) :
  nth_error urls i = Some None ->
  run_task w job_id i None = (inr None, [])
  /\ forall out main tasks,
       download_files_from_urls w job_id (UrlList urls) = BatchReturned out main tasks ->
       nth_error out i = Some None
       /\ exists t, nth_error tasks i = Some t /\ t = [] /\ gets t = 0.
Proof.
  intros Hi. split; [reflexivity|].
  intros out main tasks E.
  destruct (batch_returned w job_id urls out main tasks E) as [_ Hnth].
  destruct (Hnth i None Hi) as (r & t & Hrun & Hout & Htask).
  unfold run_task in Hrun. rewrite download_file_to_path_None in Hrun.
  injection Hrun as <- <-. split; [exact Hout|].
  exists []. now repeat split.
Qed.

Lemma null_slot_maps_to_null_witness :
  run_task sample_world "job7" 2 None = (inr None, [])
  /\ forall out main tasks,
       download_files_from_urls sample_world "job7" (UrlList sample_urls)
       = BatchReturned out main tasks ->
       nth_error out 2 = Some None
       /\ exists t, nth_error tasks 2 = Some t /\ t = [] /\ gets t = 0.
Proof.
  apply (null_slot_maps_to_null sample_world "job7" sample_urls 2).
  reflexivity.
Defined.

(** C2. A URL whose download fails at every attempt of the retry budget:
    its task returns [None] after [max_tries] requests without writing a
    file and without raising; and the batch call behaves as if the entry
    had been null: it raises the same exception or returns the same list,
    with [None] at that index, and the other tasks leave the same traces. *)
Theorem failed_download_is_isolated
  (w : World) (job_id : string) (urls : list (option string))
  (i : nat) (url : string) :
  nth_error urls i = Some (Some url) ->
  (forall n, n < max_tries -> attempt_fails (task_env w i) n url = true) ->
  (exists t, run_task w job_id i (Some url) = (inr None, t)
             /\ writes t = 0 /\ gets t = max_tries)
  /\ match download_files_from_urls w job_id (UrlList urls),
           download_files_from_urls w job_id (UrlList (list_set i None urls)) with
     | BatchRaised e, BatchRaised e' => e = e'
     | BatchReturned out main tasks, BatchReturned out' main' tasks' =>
         out = out' /\ nth_error out i = Some None /\ main = main'
         /\ forall j, j <> i -> nth_error tasks j = nth_error tasks' j
     | _, _ => False
     end.
Proof.
  intros Hi Hfail.
  destruct (download_file_to_path_exhausted (task_env w i)
              (batch_directory w job_id) url Hfail) as (t & Hrun & Hw & Hg).
  split; [now exists t|].
  rewrite !download_files_from_urls_unfold. simpl as_list.
  destruct (makedirs_error _ _); [reflexivity|].
  pose proof (executor_map_isolated
                (fun env => download_file_to_path env (batch_directory w job_id))
                (task_env w) (fun env => eq_refl) urls 0 i (Some url) t Hi Hrun) as H.
  destruct (executor_map _ _ 0 urls) as [e|rs];
    destruct (executor_map _ _ 0 (list_set i None urls)) as [e'|rs'];
    try exact H.
  destruct H as (Hout & Hnone & Htr). now repeat split.
Qed.

Lemma failed_download_is_isolated_witness :
  (exists t, run_task sample_world "job7" 1 (Some "http://x/b") = (inr None, t)
             /\ writes t = 0 /\ gets t = max_tries)
  /\ match download_files_from_urls sample_world "job7" (UrlList sample_urls),
           download_files_from_urls sample_world "job7"
             (UrlList (list_set 1 None sample_urls)) with
     | BatchRaised e, BatchRaised e' => e = e'
     | BatchReturned out main tasks, BatchReturned out' main' tasks' =>
         out = out' /\ nth_error out 1 = Some None /\ main = main'
         /\ forall j, j <> 1 -> nth_error tasks j = nth_error tasks' j
     | _, _ => False
     end.
Proof.
  apply (failed_download_is_isolated sample_world "job7" sample_urls 1 "http://x/b").
  - reflexivity.
  - intros n _. reflexivity.
Defined.

(** ** Inversion of computations that return *)

Lemma bind_returned {A B} (c : IO A) (k : A -> IO B) (t t' : trace) (b : B) :
  bind c k t = (inr b, t') ->
  exists a t1, c t = (inr a, t1) /\ k a t1 = (inr b, t').
Proof.
  unfold bind. destruct (c t) as [[e|a] t1]; [discriminate|].
  intros H. now exists a, t1.
Qed.

Lemma ret_returned {A} (a b : A) (t t' : trace) :
  ret a t = (inr b, t') -> a = b /\ t = t'.
Proof. unfold ret. now intros [= -> ->]. Qed.

Lemma check_returned (err : option exn) (t t' : trace) (u : unit) :
  check err t = (inr u, t') -> err = None /\ t' = t.
Proof. destruct err; unfold check, raise, ret; [discriminate | now intros [= _ ->]]. Qed.

Lemma os_makedirs_returned (env : Env) (p : string) (t t' : trace) (u : unit) :
  os_makedirs env p t = (inr u, t') ->
  makedirs_error env p = None /\ t' = (t ++ [Makedirs p])%list.
Proof.
  unfold os_makedirs. intros H.
  apply bind_returned in H as (? & t1 & [= _ <-] & H).
  now apply check_returned in H.
Qed.

Lemma write_file_returned (env : Env) (p : string) (d : list byte)
  (t t' : trace) (u : unit) :
  write_file env p d t = (inr u, t') ->
  write_error env p = None /\ t' = (t ++ [WriteFile p d])%list.
Proof.
  unfold write_file. intros H.
  apply bind_returned in H as (? & t1 & [= _ <-] & H).
  now apply check_returned in H.
Qed.

Lemma zip_extractall_returned (env : Env) (a d : string) (t t' : trace) (u : unit) :
  zip_extractall env a d t = (inr u, t') ->
  extractall_error env a d = None /\ t' = (t ++ [ExtractAll a d])%list.
Proof.
  unfold zip_extractall. intros H.
  apply bind_returned in H as (? & t1 & [= _ <-] & H).
  now apply check_returned in H.
Qed.

Lemma http_get_returned (env : Env) (url : string) (timeout : Z)
  (t t' : trace) (r : Response) :
  http_get env url timeout t = (inr r, t') ->
  requests_get env (gets t) url = inr r /\ t' = (t ++ [Get url timeout])%list.
Proof. unfold http_get. now intros [= -> <-]. Qed.

(** ** The single download *)

(** Everything a returned call of [file] determines. *)
Lemma file_returned (env : Env) (url : string) (r : DownloadedFile) (t : trace) :
  file env url [] = (inr r, t) ->
  exists resp,
    requests_get env 0 url = inr resp
    /\ match header_matches resp with
       | first :: _ => original_name r = first
       | [] => exists parsed,
                 UrlParse.urlparse (netloc_valid env) url = Some parsed
                 /\ original_name r = PosixPath.basename (UrlParse.path parsed)
       end
    /\ type r = PyStr.remove "." (snd (PosixPath.splitext (original_name r)))
    /\ file_path r =
         os_path_abspath env (PosixPath.join "job_files" [uuid4 env ++ "." ++ type r])
    /\ extracted_path r =
         (if type r =? "zip"
          then Some (os_path_abspath env (PosixPath.join "job_files" [uuid4 env]))
          else None)
    /\ t = List.app
              [Makedirs "job_files"; Get url 30;
               WriteFile (PosixPath.join "job_files" [uuid4 env ++ "." ++ type r])
                         (content resp)]
              (if type r =? "zip"
               then [Makedirs (PosixPath.join "job_files" [uuid4 env]);
                     ExtractAll
                       (PosixPath.join "job_files" [uuid4 env ++ "." ++ type r])
                       (PosixPath.join "job_files" [uuid4 env])]
               else []).
Proof.
  unfold file. intros H.
  apply bind_returned in H as (? & t1 & H1 & H).
  apply os_makedirs_returned in H1 as [_ ->].
  apply bind_returned in H as (resp & t2 & H2 & H).
  apply http_get_returned in H2 as [Hget ->].
  exists resp. split; [exact Hget|].
  apply bind_returned in H as (name & t3 & H3 & H).
  fold (header_matches resp) in H3.
  apply bind_returned in H as (? & t4 & H4 & H).
  apply write_file_returned in H4 as [_ ->].
  apply bind_returned in H as (ex & t5 & H5 & H).
  apply ret_returned in H as [<- <-]. cbn [original_name type file_path extracted_path].
  assert (Hname : t3 = [Makedirs "job_files"; Get url 30]
                  /\ match header_matches resp with
                     | first :: _ => name = first
                     | [] => exists parsed,
                         UrlParse.urlparse (netloc_valid env) url = Some parsed
                         /\ name = PosixPath.basename (UrlParse.path parsed)
                     end).
  { destruct (header_matches resp) as [|first rest].
    - destruct (UrlParse.urlparse (netloc_valid env) url) as [parsed|]; [|discriminate].
      apply ret_returned in H3 as [<- <-]. split; [reflexivity|]. now exists parsed.
    - apply ret_returned in H3 as [<- <-]. now split. }
  destruct Hname as [-> Hname]. split; [exact Hname|]. split; [reflexivity|].
  split; [reflexivity|].
  destruct (PyStr.remove "." (snd (PosixPath.splitext name)) =? "zip").
  - apply bind_returned in H5 as (? & t6 & H6 & H5).
    apply os_makedirs_returned in H6 as [_ ->].
    apply bind_returned in H5 as (? & t7 & H7 & H5).
    apply zip_extractall_returned in H7 as [_ ->].
    apply ret_returned in H5 as [<- <-]. now split.
  - apply ret_returned in H5 as [<- <-]. now split.
Qed.

(** ** Computations that succeed *)

Lemma bind_ok {A B} (c : IO A) (k : A -> IO B) (t t1 : trace) (a : A) :
  c t = (inr a, t1) -> bind c k t = k a t1.
Proof. unfold bind. now intros ->. Qed.

Lemma os_makedirs_ok (env : Env) (p : string) (t : trace) :
  makedirs_error env p = None ->
  os_makedirs env p t = (inr tt, (t ++ [Makedirs p])%list).
Proof. unfold os_makedirs, bind, emit, check. now intros ->. Qed.

Lemma write_file_ok (env : Env) (p : string) (d : list byte) (t : trace) :
  write_error env p = None ->
  write_file env p d t = (inr tt, (t ++ [WriteFile p d])%list).
Proof. unfold write_file, bind, emit, check. now intros ->. Qed.

Lemma zip_extractall_ok (env : Env) (a d : string) (t : trace) :
  extractall_error env a d = None ->
  zip_extractall env a d t = (inr tt, (t ++ [ExtractAll a d])%list).
Proof. unfold zip_extractall, bind, emit, check. now intros ->. Qed.

Lemma http_get_ok (env : Env) (url : string) (timeout : Z) (t : trace)
  (resp : Response) :
  requests_get env (gets t) url = inr resp ->
  http_get env url timeout t = (inr resp, (t ++ [Get url timeout])%list).
Proof. unfold http_get. now intros ->. Qed.

(** When [file] returns: the request is answered, a name can be found and
    no file system call fails. *)
Lemma file_returns (env : Env) (url : string) (resp : Response) :
  requests_get env 0 url = inr resp ->
  (header_matches resp <> []
   \/ UrlParse.urlparse (netloc_valid env) url <> None) ->
  (forall p, makedirs_error env p = None) ->
  (forall p, write_error env p = None) ->
  (forall a d, extractall_error env a d = None) ->
  exists r t, file env url [] = (inr r, t).
Proof.
  intros Hget Hname Hmk Hwr Hex.
  unfold file.
  rewrite (bind_ok _ _ _ _ _ (os_makedirs_ok env "job_files" [] (Hmk _))).
  rewrite (bind_ok _ _ _ _ _
             (http_get_ok env url 30 ([] ++ [Makedirs "job_files"])%list resp Hget)).
  fold (header_matches resp).
  assert (Hn : exists name,
             match header_matches resp with
             | first :: _ => ret first
             | [] =>
                 match UrlParse.urlparse (netloc_valid env) url with
                 | Some parsed => ret (PosixPath.basename (UrlParse.path parsed))
                 | None => raise (ValueError "urlparse")
                 end
             end = ret name).
  { destruct (header_matches resp) as [|first rest].
    - destruct (UrlParse.urlparse (netloc_valid env) url) as [parsed|].
      + now eexists.
      + now destruct Hname.
    - now eexists. }
  destruct Hn as [name ->].
  erewrite bind_ok by reflexivity.
  erewrite bind_ok by (apply write_file_ok, Hwr).
  destruct (PyStr.remove "." (snd (PosixPath.splitext name)) =? "zip").
  - erewrite bind_ok.
    + unfold ret. now eexists _, _.
    + erewrite bind_ok by (apply os_makedirs_ok, Hmk).
      erewrite bind_ok by (apply zip_extractall_ok, Hex).
      reflexivity.
  - erewrite bind_ok by reflexivity. unfold ret. now eexists _, _.
Qed.

(** ** Absolute paths *)

Lemma isabs_inv (p : string) :
  PosixPath.isabs p = true -> exists p', p = String "/" p'.
Proof.
  destruct p as [|c p']; [intros H; cbv in H; discriminate H|].
  unfold PosixPath.isabs, PyStr.startswith. cbn [String.prefix].
  destruct (ascii_dec "/" c) as [<-|]; [|intros H; discriminate H].
  intros _. now exists p'.
Qed.

Lemma isabs_cons (p : string) : PosixPath.isabs (String "/" p) = true.
Proof.
  unfold PosixPath.isabs, PyStr.startswith. cbn [String.prefix].
  destruct (ascii_dec "/" "/") as [_|H]; [now destruct p | now destruct H].
Qed.

Lemma normpath_isabs (p : string) :
  PosixPath.isabs p = true -> PosixPath.isabs (PosixPath.normpath p) = true.
Proof.
  intros H. destruct (isabs_inv p H) as [p' ->].
  unfold PosixPath.normpath.
  change (String "/" p' =? "") with false. cbv iota.
  unfold PosixPath.isabs in H. rewrite H.
  destruct (PyStr.startswith "//" (String "/" p')
            && negb (PyStr.startswith "///" (String "/" p')));
    cbv iota; apply isabs_cons.
Qed.

Lemma abspath_isabs (cwd p : string) :
  PosixPath.isabs cwd = true -> PosixPath.isabs (PosixPath.abspath cwd p) = true.
Proof.
  intros Hcwd. unfold PosixPath.abspath. apply normpath_isabs.
  destruct (PosixPath.isabs p) eqn:Hp; [exact Hp|].
  destruct (isabs_inv cwd Hcwd) as [c ->].
  unfold PosixPath.join, PosixPath.join_step. cbn [fold_left negb].
  unfold PosixPath.isabs in Hp. rewrite Hp.
  destruct ((String "/" c =? "") || PyStr.endswith PosixPath.sep (String "/" c));
    apply isabs_cons.
Qed.

(** C3. After a call of [file] that returns, in a process whose working
    directory is an absolute path: [extracted_path] is set exactly when
    [type] is [zip]; it is then the absolute path of the directory the call
    created for the extraction; otherwise it is null. *)
Theorem extracted_path_iff_zip
  (env : Env) (url : string) (r : DownloadedFile) (t : trace) :
  PosixPath.isabs (getcwd env) = true ->
  file env url [] = (inr r, t) ->
  (extracted_path r <> None <-> type r = "zip")
  /\ (type r = "zip" ->
      exists d, In (Makedirs d) t
                /\ extracted_path r = Some (os_path_abspath env d)
                /\ PosixPath.isabs (os_path_abspath env d) = true)
  /\ (type r <> "zip" -> extracted_path r = None).
Proof.
  intros Hcwd H.
  destruct (file_returned env url r t H) as (resp & _ & _ & _ & _ & Hex & Ht).
  destruct (type r =? "zip") eqn:Hz.
  - apply String.eqb_eq in Hz. repeat split.
    + now intros _.
    + intros _. now rewrite Hex.
    + intros _. exists (PosixPath.join "job_files" [uuid4 env]). repeat split.
      * rewrite Ht. apply in_or_app. right. now left.
      * exact Hex.
      * now apply abspath_isabs.
    + now intros Hne.
  - apply String.eqb_neq in Hz. repeat split.
    + intros Hne. now rewrite Hex in Hne.
    + intros Hzip. now destruct Hz.
    + intros Hzip. now destruct Hz.
    + now intros _.
Qed.

Lemma extracted_path_iff_zip_witness :
  exists r t,
    file env_bare_zip "http://x/y/report.csv" [] = (inr r, t)
    /\ type r = "zip"
    /\ (extracted_path r <> None <-> type r = "zip")
    /\ exists d, In (Makedirs d) t
                 /\ extracted_path r = Some (os_path_abspath env_bare_zip d)
                 /\ PosixPath.isabs (os_path_abspath env_bare_zip d) = true.
Proof.
  destruct (file env_bare_zip "http://x/y/report.csv" []) as [[e|r] t] eqn:E;
    [vm_compute in E; discriminate|].
  exists r, t. split; [reflexivity|].
  assert (Hz : type r = "zip") by (vm_compute in E; now injection E as <- _).
  destruct (extracted_path_iff_zip env_bare_zip "http://x/y/report.csv" r t
              eq_refl E) as (Hiff & Hdir & _).
  split; [exact Hz|]. split; [exact Hiff|]. exact (Hdir Hz).
Defined.

(** ** Facts about [find], [rfind], [split], slices *)

Section CharFacts.

Variable c : ascii.

Lemma rfind_lower_bound (s : string) : (-1 <= PyStr.rfind c s)%Z.
Proof.
  induction s as [|a s IH]; simpl; [lia|].
  destruct (0 <=? PyStr.rfind c s)%Z eqn:E.
  - apply Z.leb_le in E. lia.
  - destruct (Ascii.eqb a c); lia.
Qed.

Lemma split_not_nil (s : string) : PyStr.split c s <> [].
Proof.
  destruct s as [|a s]; simpl; [discriminate|].
  destruct (Ascii.eqb a c); [discriminate|].
  destruct (PyStr.split c s); discriminate.
Qed.

(** Without an occurrence of [c] the text is one piece. *)
Lemma split_absent (s : string) :
  (PyStr.rfind c s < 0)%Z -> PyStr.split c s = [s].
Proof.
  induction s as [|a s IH]; simpl; [reflexivity|].
  destruct (0 <=? PyStr.rfind c s)%Z eqn:E.
  - apply Z.leb_le in E. lia.
  - apply Z.leb_gt in E. destruct (Ascii.eqb a c); [lia|].
    intros _. now rewrite (IH E).
Qed.

(** With an occurrence there are at least two pieces. *)
Lemma split_present (s : string) :
  (0 <= PyStr.rfind c s)%Z ->
  exists x y rest, PyStr.split c s = x :: y :: rest.
Proof.
  induction s as [|a s IH]; simpl; [lia|].
  destruct (0 <=? PyStr.rfind c s)%Z eqn:E.
  - apply Z.leb_le in E. intros _.
    destruct (IH E) as (x & y & rest & ->).
    destruct (Ascii.eqb a c); now eexists _, _, _.
  - apply Z.leb_gt in E. destruct (Ascii.eqb a c) eqn:Ea; [|lia].
    intros _. rewrite (split_absent s E). now eexists _, _, _.
Qed.

Lemma remove_absent (s : string) :
  (PyStr.rfind c s < 0)%Z -> PyStr.remove c s = s.
Proof.
  induction s as [|a s IH]; simpl; [reflexivity|].
  destruct (0 <=? PyStr.rfind c s)%Z eqn:E.
  - apply Z.leb_le in E. lia.
  - apply Z.leb_gt in E. destruct (Ascii.eqb a c); [lia|].
    intros _. now rewrite (IH E).
Qed.

Lemma contains_absent (s : string) :
  (PyStr.rfind c s < 0)%Z -> PyStr.contains c s = false.
Proof.
  unfold PyStr.contains.
  induction s as [|a s IH]; simpl; [reflexivity|].
  destruct (0 <=? PyStr.rfind c s)%Z eqn:E.
  - apply Z.leb_le in E. lia.
  - apply Z.leb_gt in E. destruct (Ascii.eqb a c); [lia|].
    intros _. specialize (IH E). apply Z.leb_gt in IH.
    destruct (PyStr.find c s <? 0)%Z eqn:F; [reflexivity|].
    apply Z.ltb_ge in F. lia.
Qed.

(** The text from the last occurrence of [c] on starts with [c] and has
    no other. *)
Lemma drop_rfind (s : string) :
  (0 <= PyStr.rfind c s)%Z ->
  exists rest,
    PyStr.drop (Z.to_nat (PyStr.rfind c s)) s = String c rest
    /\ (PyStr.rfind c rest < 0)%Z.
Proof.
  induction s as [|a s IH]; simpl; [lia|].
  destruct (0 <=? PyStr.rfind c s)%Z eqn:E.
  - apply Z.leb_le in E. intros _.
    destruct (IH E) as (rest & Hd & Hr). exists rest. split; [|exact Hr].
    replace (Z.to_nat (PyStr.rfind c s + 1)) with (S (Z.to_nat (PyStr.rfind c s)))
      by lia.
    exact Hd.
  - apply Z.leb_gt in E. destruct (Ascii.eqb a c) eqn:Ea; [|lia].
    apply Ascii.eqb_eq in Ea. subst a. intros _. now exists s.
Qed.

End CharFacts.

Lemma take_drop (n : nat) (s : string) : PyStr.take n s ++ PyStr.drop n s = s.
Proof.
  revert s. induction n as [|n IH]; intros [|a s]; simpl; try reflexivity.
  now rewrite IH.
Qed.

(** [os.path.basename] computes the last path segment. *)
Lemma basename_last_path_segment (p : string) :
  PosixPath.basename p = last_path_segment p.
Proof.
  unfold PosixPath.basename, last_path_segment, PyStr.slice_from, PosixPath.sep.
  induction p as [|a p IH]; [reflexivity|].
  pose proof (rfind_lower_bound "/" p) as Hlb.
  cbn [PyStr.rfind PyStr.split].
  destruct (0 <=? PyStr.rfind "/" p)%Z eqn:E.
  - apply Z.leb_le in E.
    replace (Z.to_nat (PyStr.rfind "/" p + 1 + 1))
      with (S (Z.to_nat (PyStr.rfind "/" p + 1))) by lia.
    cbn [PyStr.drop]. rewrite IH.
    destruct (split_present "/" p E) as (x & y & rest & ->).
    destruct (Ascii.eqb a "/"); reflexivity.
  - apply Z.leb_gt in E. rewrite (split_absent "/" p E).
    destruct (Ascii.eqb a "/"); reflexivity.
Qed.

Lemma header_matches_no_header (resp : Response) :
  headers_contains "Content-Disposition" (headers resp) = false ->
  header_matches resp = [].
Proof. unfold header_matches. now intros ->. Qed.

(** ** [splitext] *)

Lemma append_empty_r (s : string) : s ++ "" = s.
Proof. induction s as [|a s IH]; simpl; [reflexivity | now rewrite IH]. Qed.

Lemma splitext_loop_result (n : nat) (p : string) (dotIndex : Z) :
  forall filenameIndex r,
    PosixPath.splitext_loop n filenameIndex dotIndex p = Some r ->
    r = (PyStr.slice_to dotIndex p, PyStr.slice_from dotIndex p).
Proof.
  induction n as [|n IH]; simpl; intros f r; [discriminate|].
  destruct (negb _); [now intros [= <-] | apply IH].
Qed.

(** The two parts of [splitext] make up the name, and the extension is
    empty or a dot followed by text without a dot. *)
Lemma splitext_parts (p : string) :
  fst (PosixPath.splitext p) ++ snd (PosixPath.splitext p) = p
  /\ (snd (PosixPath.splitext p) = ""
      \/ exists e, snd (PosixPath.splitext p) = String "." e
                   /\ (PyStr.rfind "." e < 0)%Z).
Proof.
  unfold PosixPath.splitext, PosixPath.extsep.
  pose proof (rfind_lower_bound PosixPath.sep p) as Hsep.
  destruct (PyStr.rfind "." p >? PyStr.rfind PosixPath.sep p)%Z eqn:E;
    [|simpl; split; [apply append_empty_r | now left]].
  destruct (PosixPath.splitext_loop _ _ _ p) as [r|] eqn:L;
    [|simpl; split; [apply append_empty_r | now left]].
  apply splitext_loop_result in L. subst r. simpl fst. simpl snd.
  unfold PyStr.slice_to, PyStr.slice_from. split; [apply take_drop|].
  right. apply drop_rfind. apply Z.gtb_lt in E. lia.
Qed.

(** C6, as amended. After a call of [file] that returns, [type] is the
    extension of [original_name] as [splitext] gives it, without its dot
    and in the case it has in the name: the extension is empty and so is
    [type], or the extension is a dot followed by [type], which has no
    dot. *)
Theorem type_is_extension_without_dot
  (env : Env) (url : string) (r : DownloadedFile) (t : trace) :
  file env url [] = (inr r, t) ->
  fst (PosixPath.splitext (original_name r))
  ++ snd (PosixPath.splitext (original_name r)) = original_name r
  /\ ((snd (PosixPath.splitext (original_name r)) = "" /\ type r = "")
      \/ (snd (PosixPath.splitext (original_name r)) = String "." (type r)
          /\ PyStr.contains "." (type r) = false)).
Proof.
  intros H.
  destruct (file_returned env url r t H) as (_ & _ & _ & Htype & _).
  destruct (splitext_parts (original_name r)) as [Hparts [Hext | (e & Hext & He)]].
  - split; [exact Hparts|]. left. split; [exact Hext|]. now rewrite Htype, Hext.
  - split; [exact Hparts|]. right.
    assert (Ht : type r = e).
    { rewrite Htype, Hext. simpl. now apply remove_absent. }
    rewrite Ht. split; [exact Hext | now apply contains_absent].
Qed.

Lemma type_is_extension_without_dot_witness :
  exists r t,
    file env_plain "http://x/y/REPORT.CSV" [] = (inr r, t)
    /\ snd (PosixPath.splitext (original_name r)) = String "." (type r)
    /\ type r = "CSV".
Proof.
  destruct (file env_plain "http://x/y/REPORT.CSV" []) as [[e|r] t] eqn:E;
    [vm_compute in E; discriminate|].
  exists r, t. split; [reflexivity|].
  assert (Ht : type r = "CSV") by (vm_compute in E; now injection E as <- _).
  destruct (type_is_extension_without_dot env_plain "http://x/y/REPORT.CSV" r t E)
    as [_ [[_ Hempty] | [Hext _]]].
  - rewrite Ht in Hempty. discriminate Hempty.
  - now split.
Defined.

(** C6, as stated, fails: for a URL whose last segment is [REPORT.CSV] the
    returned [type] is [CSV], not its lowercase form. *)
Lemma type_is_not_lowercased :
  exists r t,
    file env_plain "http://x/y/REPORT.CSV" [] = (inr r, t)
    /\ original_name r = "REPORT.CSV"
    /\ type r = "CSV"
    /\ lowercase_extension (original_name r) = "csv"
    /\ type r <> lowercase_extension (original_name r).
Proof.
  eexists _, _. split; [vm_compute; reflexivity|].
  cbn [original_name type]. repeat split. discriminate.
Qed.

(** ** The quoted file name *)

(** C5. With the header [Content-Disposition: attachment;
    filename="data.json"] a call of [file] that returns has the quoted text
    as [original_name], closing quote included, and the closing quote is
    part of [type] as well: [type] is not [json]. *)
Theorem quoted_filename_type
  (env : Env) (url : string) (resp : Response) (r : DownloadedFile) (t : trace) :
  requests_get env 0 url = inr resp ->
  headers_get "Content-Disposition" (headers resp) = Some quoted_json ->
  file env url [] = (inr r, t) ->
  original_name r = String DQUOTE ("data.json" ++ String DQUOTE "")
  /\ type r = "json" ++ String DQUOTE ""
  /\ type r <> "json".
Proof.
  intros Hget Hcd H.
  destruct (file_returned env url r t H) as (resp' & Hget' & Hname & Htype & _).
  rewrite Hget in Hget'. injection Hget' as <-.
  assert (Hm : header_matches resp
               = [String DQUOTE ("data.json" ++ String DQUOTE "")]).
  { unfold header_matches, headers_contains. rewrite Hcd. reflexivity. }
  rewrite Hm in Hname. rewrite Hname in Htype. split; [exact Hname|].
  assert (Ht : type r = "json" ++ String DQUOTE "") by (rewrite Htype; reflexivity).
  split; [exact Ht|]. rewrite Ht. discriminate.
Qed.

Lemma quoted_filename_type_witness :
  exists r t,
    file env_quoted "http://x/download" [] = (inr r, t)
    /\ original_name r = String DQUOTE ("data.json" ++ String DQUOTE "")
    /\ type r = "json" ++ String DQUOTE ""
    /\ type r <> "json".
Proof.
  destruct (file env_quoted "http://x/download" []) as [[e|r] t] eqn:E;
    [vm_compute in E; discriminate|].
  exists r, t. split; [reflexivity|].
  exact (quoted_filename_type env_quoted "http://x/download"
           (mkResponse 200 [("Content-Disposition", quoted_json)] body)
           r t eq_refl eq_refl E).
Defined.

(** ** Errors of the single download *)

(** An exception of [requests.get] leaves [file] as it is, after one
    request and before anything is written. *)
Lemma file_transport_error (env : Env) (url : string) (e : exn) :
  makedirs_error env "job_files" = None ->
  requests_get env 0 url = inl e ->
  file env url [] = (inl e, [Makedirs "job_files"; Get url 30]).
Proof.
  intros Hmk Hget. unfold file.
  erewrite bind_ok by (apply os_makedirs_ok, Hmk).
  unfold bind, http_get.
  change (gets ([] ++ [Makedirs "job_files"])%list) with 0.
  now rewrite Hget.
Qed.

(** C7. [file] makes one request, and the status of the response plays no
    part: a response with an error status (400 to 599) is written to disk
    and a record is returned, where the specification has the call fail. *)
Theorem file_returns_on_error_status
  (env : Env) (url : string) (resp : Response) :
  requests_get env 0 url = inr resp ->
  (400 <= status_code resp < 600)%Z ->
  (header_matches resp <> []
   \/ UrlParse.urlparse (netloc_valid env) url <> None) ->
  (forall p, makedirs_error env p = None) ->
  (forall p, write_error env p = None) ->
  (forall a d, extractall_error env a d = None) ->
  exists r t,
    file env url [] = (inr r, t)
    /\ gets t = 1
    /\ In (WriteFile (PosixPath.join "job_files" [uuid4 env ++ "." ++ type r])
                     (content resp)) t.
Proof.
  intros Hget _ Hname Hmk Hwr Hex.
  destruct (file_returns env url resp Hget Hname Hmk Hwr Hex) as (r & t & H).
  exists r, t. split; [exact H|].
  destruct (file_returned env url r t H) as (resp' & Hget' & _ & _ & _ & _ & Ht).
  rewrite Hget in Hget'. injection Hget' as <-.
  rewrite Ht. split.
  - destruct (type r =? "zip"); reflexivity.
  - apply in_or_app. left. right. right. now left.
Qed.

Lemma file_returns_on_error_status_witness :
  exists r t,
    file env_404 "http://x/y/report.csv" [] = (inr r, t)
    /\ gets t = 1
    /\ In (WriteFile (PosixPath.join "job_files" [uuid4 env_404 ++ "." ++ type r])
                     body) t.
Proof.
  apply (file_returns_on_error_status env_404 "http://x/y/report.csv"
           (mkResponse 404 [] body)).
  - reflexivity.
  - simpl. lia.
  - right. discriminate.
  - reflexivity.
  - reflexivity.
  - reflexivity.
Defined.

(** ** The pattern [filename=(.+)] *)












(** ** The extension of a batch download *)

Lemma readlines_regular (a : ascii) (s : string) :
  Ascii.eqb a PyStr.LF = false -> Ascii.eqb a PyStr.CR = false ->
  Email.readlines (String a s)
  = match Email.readlines s with
    | l :: ls => String a l :: ls
    | [] => [String a ""]
    end.
Proof.
  intros Hlf Hcr. change (Email.readlines (String a s)) with
    (if Ascii.eqb a PyStr.LF then String a "" :: Email.readlines s
     else if Ascii.eqb a PyStr.CR then
       match s with
       | String c' s'' =>
           if Ascii.eqb c' PyStr.LF
           then String a (String c' "") :: Email.readlines s''
           else String a "" :: Email.readlines s
       | EmptyString => [String a ""]
       end
     else match Email.readlines s with
          | l :: ls => String a l :: ls
          | [] => [String a ""]
          end).
  now rewrite Hlf, Hcr.
Qed.

Lemma readlines_single_line (s : string) :
  forall a, single_line (String a s) = true ->
            Email.readlines (String a s) = [String a s].
Proof.
  unfold single_line, Email.is_crlf.
  induction s as [|b s IH]; intros a H; cbn [PyStr.all_chars] in H;
    apply andb_true_iff in H as [Ha Hs];
    apply negb_true_iff, orb_false_iff in Ha as [Hcr Hlf];
    rewrite (readlines_regular a _ Hlf Hcr).
  - reflexivity.
  - now rewrite (IH b Hs).
Qed.

(** The dictionary built from the parsed header has the header name as its
    only key, so the lookup of [filename] gives the default. *)
Lemma filename_param_is_empty (v : string) :
  single_line v = true ->
  PyDict.get "filename" ""
    (Email.message_from_string_items ("Content-Disposition: " ++ v)) = "".
Proof.
  intros Hv. unfold Email.message_from_string_items.
  cbn [String.append]. rewrite readlines_single_line.
  - vm_compute. reflexivity.
  - unfold single_line in *. cbn [PyStr.all_chars]. now rewrite Hv.
Qed.

Lemma raise_for_status_ok (r : Response) (t : trace) :
  (400 <=? status_code r)%Z && (status_code r <? 600)%Z = false ->
  raise_for_status r t = (inr tt, t).
Proof.
  intros H. unfold raise_for_status.
  destruct ((400 <=? status_code r)%Z && (status_code r <? 500)%Z) eqn:E1.
  - apply andb_true_iff in E1 as [Ha Hb]. apply andb_false_iff in H.
    rewrite Z.leb_le in Ha. rewrite Z.ltb_lt in Hb.
    rewrite Z.leb_gt, Z.ltb_ge in H. lia.
  - destruct ((500 <=? status_code r)%Z && (status_code r <? 600)%Z) eqn:E2;
      [|reflexivity].
    apply andb_true_iff in E2 as [Ha Hb]. apply andb_false_iff in H.
    rewrite Z.leb_le in Ha. rewrite Z.ltb_lt in Hb.
    rewrite Z.leb_gt, Z.ltb_ge in H. lia.
Qed.

(** One attempt that is answered without an error status returns the body
    and an empty extension, whatever the header says. *)
Lemma download_file_once_extension (env : Env) (url : string) (resp : Response)
  (t : trace) :
  requests_get env (gets t) url = inr resp ->
  (400 <=? status_code resp)%Z && (status_code resp <? 600)%Z = false ->
  (forall v, headers_get "Content-Disposition" (headers resp) = Some v ->
             single_line v = true) ->
  download_file_once env url t = (inr (content resp, ""), (t ++ [Get url 5])%list).
Proof.
  intros Hget Hst Hline. unfold download_file_once.
  erewrite bind_ok by (apply http_get_ok; exact Hget).
  erewrite bind_ok by (apply raise_for_status_ok; exact Hst).
  unfold ret. do 2 f_equal.
  destruct (headers_get "Content-Disposition" (headers resp)) as [v|]; [|reflexivity].
  unfold truthy, fmt. destruct (negb (v =? "")); [|reflexivity].
  now rewrite (filename_param_is_empty v (Hline v eq_refl)).
Qed.

Lemma on_exception_first_ok {A} (target : IO A) (retries : nat)
  (t t1 : trace) (a : A) :
  target t = (inr a, t1) -> on_exception retries target t = (inr a, t1).
Proof.
  intros H. destruct retries; simpl; [exact H|].
  unfold try_except. now rewrite H.
Qed.

(** C4. A download that is answered at the first attempt without an error
    status is saved under the random name alone: the file name has no
    extension, also when the Content-Disposition header names a file with
    one. *)
Theorem batch_file_name_has_no_extension
  (env : Env) (dir url : string) (resp : Response) :
  requests_get env 0 url = inr resp ->
  (400 <=? status_code resp)%Z && (status_code resp <? 600)%Z = false ->
  (forall v, headers_get "Content-Disposition" (headers resp) = Some v ->
             single_line v = true) ->
  (forall p, write_error env p = None) ->
  download_file_to_path env dir (Some url) []
  = (inr (Some (os_path_abspath env (PosixPath.join dir [uuid4 env]))),
     [Get url 5; WriteFile (PosixPath.join dir [uuid4 env]) (content resp)]).
Proof.
  intros Hget Hst Hline Hwr.
  pose proof (download_file_once_extension env url resp [] Hget Hst Hline) as Honce.
  unfold download_file_to_path.
  erewrite bind_ok with (a := Some (content resp, "")) (t1 := [Get url 5]).
  - rewrite append_empty_r.
    erewrite bind_ok by (apply write_file_ok, Hwr). reflexivity.
  - unfold try_except.
    erewrite bind_ok by (apply on_exception_first_ok, Honce). reflexivity.
Qed.

Lemma batch_file_name_has_no_extension_witness :
  download_file_to_path env_quoted "/srv/worker/jobs/job7/downloaded_files"
    (Some "http://x/a") []
  = (inr (Some ("/srv/worker/jobs/job7/downloaded_files/" ++ sample_uuid)),
     [Get "http://x/a" 5;
      WriteFile ("/srv/worker/jobs/job7/downloaded_files/" ++ sample_uuid) body]).
Proof.
  apply (batch_file_name_has_no_extension env_quoted
           "/srv/worker/jobs/job7/downloaded_files" "http://x/a"
           (mkResponse 200 [("Content-Disposition", quoted_json)] body)).
  - reflexivity.
  - reflexivity.
  - intros v [= <-]. reflexivity.
  - reflexivity.
Defined.

(** * Further properties of the two downloaders *)

Lemma sleeps_app (t u : trace) : sleeps (t ++ u)%list = sleeps t + sleeps u.
Proof. unfold sleeps. now rewrite filter_app, length_app. Qed.

Lemma raise_for_status_returned (r : Response) (t t' : trace) (u : unit) :
  raise_for_status r t = (inr u, t') -> status_passes r = true /\ t' = t.
Proof.
  unfold status_passes. intros H.
  destruct ((400 <=? status_code r)%Z && (status_code r <? 600)%Z) eqn:E.
  - destruct (raise_for_status_raises r t E) as (e & He & _).
    rewrite He in H. discriminate H.
  - rewrite (raise_for_status_ok r t E) in H. injection H as <-. now split.
Qed.

(** One attempt makes one request and nothing else. *)
Lemma download_file_once_trace (env : Env) (url : string) (t t' : trace)
  (res : exn + list byte * string) :
  download_file_once env url t = (res, t') -> t' = (t ++ [Get url 5])%list.
Proof.
  unfold download_file_once, bind, http_get.
  destruct (requests_get env (gets t) url) as [e|r]; [now intros [= _ <-]|].
  destruct (raise_for_status_cases r (t ++ [Get url 5])%list)
    as [-> | (e & -> & _)]; now intros [= _ <-].
Qed.

(** An attempt that returns was answered without an error status and
    returns the body of the answer. *)
Lemma download_file_once_returned (env : Env) (url : string) (t t' : trace)
  (d : list byte) (ext : string) :
  download_file_once env url t = (inr (d, ext), t') ->
  exists resp, requests_get env (gets t) url = inr resp
               /\ status_passes resp = true /\ d = content resp.
Proof.
  intros H. unfold download_file_once in H.
  apply bind_returned in H as (resp & t1 & H1 & H).
  apply http_get_returned in H1 as [Hget ->].
  apply bind_returned in H as (u & t2 & H2 & H).
  apply raise_for_status_returned in H2 as [Hst ->].
  apply ret_returned in H as [[= <- _] _].
  now exists resp.
Qed.

(** An answered attempt without an error status returns the body. *)
Lemma download_file_once_ok (env : Env) (url : string) (resp : Response)
  (t : trace) :
  requests_get env (gets t) url = inr resp ->
  status_passes resp = true ->
  exists ext,
    download_file_once env url t
    = (inr (content resp, ext), (t ++ [Get url 5])%list).
Proof.
  intros Hget Hst. unfold download_file_once.
  erewrite bind_ok by (apply http_get_ok; exact Hget).
  erewrite bind_ok
    by (apply raise_for_status_ok; now apply negb_true_iff in Hst).
  unfold ret. now eexists.
Qed.

(** The decorated function: [k] attempts fail and are followed by a wait,
    the next one ends the loop; nothing is written. *)
Lemma on_exception_effects (env : Env) (url : string) (retries : nat) :
  forall t res t',
    on_exception retries (download_file_once env url) t = (res, t') ->
    exists k, k <= retries
              /\ gets t' = gets t + S k
              /\ sleeps t' = sleeps t + k
              /\ writes t' = writes t
              /\ match res with
                 | inr (d, _) =>
                     exists resp,
                       requests_get env (gets t + k) url = inr resp
                       /\ status_passes resp = true /\ d = content resp
                 | inl _ => True
                 end.
Proof.
  induction retries as [|n IH]; intros t res t'; cbn [on_exception].
  - intros H. pose proof (download_file_once_trace _ _ _ _ _ H) as ->.
    exists 0. rewrite gets_app, sleeps_app, writes_app. cbn.
    repeat split; try lia.
    destruct res as [e|[d ext]]; [exact I|].
    rewrite Nat.add_0_r. eapply download_file_once_returned, H.
  - unfold try_except.
    destruct (download_file_once env url t) as [[e|[d ext]] t0] eqn:T;
      pose proof (download_file_once_trace _ _ _ _ _ T) as ->.
    + destruct (is_RequestException e).
      * unfold bind, emit. intros H. apply IH in H as (k & Hk & Hg & Hs & Hw & Hres).
        rewrite !gets_app, !sleeps_app, !writes_app in *. cbn in Hg, Hs, Hw.
        exists (S k). repeat split; try lia.
        destruct res as [e'|[d ext]]; [exact I|].
        destruct Hres as (resp & Hget & Hrest). exists resp. split; [|exact Hrest].
        rewrite <- Hget. f_equal. cbn. lia.
      * intros [= <- <-]. exists 0.
        rewrite gets_app, sleeps_app, writes_app. cbn. repeat split; lia.
    + intros [= <- <-]. exists 0.
      rewrite gets_app, sleeps_app, writes_app. cbn. repeat split; try lia.
      rewrite Nat.add_0_r. eapply download_file_once_returned, T.
Qed.

(** What a task that returns has done: nothing written for [None]; for a
    path, one file, written last, holding the body of the answer to the
    last request, the path being the absolute form of the written one. *)
Lemma download_file_to_path_returned (env : Env) (dir : string)
  (u : option string) (r : option string) (t : trace) :
  download_file_to_path env dir u [] = (inr r, t) ->
  match r with
  | None => writes t = 0
  | Some p =>
      exists url resp ext t1,
        u = Some url
        /\ t = List.app t1 [WriteFile (PosixPath.join dir [uuid4 env ++ ext])
                                      (content resp)]
        /\ writes t1 = 0
        /\ requests_get env (pred (gets t1)) url = inr resp
        /\ status_passes resp = true
        /\ p = os_path_abspath env (PosixPath.join dir [uuid4 env ++ ext])
  end.
Proof.
  destruct u as [url|]; [|now intros [= <- <-]].
  unfold download_file_to_path, download_file. intros H.
  apply bind_returned in H as (x & t1 & H1 & H).
  unfold try_except, bind in H1.
  destruct (on_exception (max_tries - 1) (download_file_once env url) [])
    as [[e|[d ext]] t0] eqn:D;
    apply on_exception_effects in D as (k & _ & Hg & _ & Hw & Hres).
  - destruct (is_RequestException e); [|discriminate H1].
    unfold emit, ret in H1. injection H1 as <- <-.
    apply ret_returned in H as [<- <-]. rewrite writes_app, Hw. reflexivity.
  - unfold ret in H1. injection H1 as <- <-.
    apply bind_returned in H as (? & t2 & H2 & H).
    apply write_file_returned in H2 as [_ ->].
    apply ret_returned in H as [<- <-].
    destruct Hres as (resp & Hget & Hst & ->).
    exists url, resp, ext, t0. repeat split; try assumption.
    rewrite Hg. cbn [gets filter List.length Nat.add pred]. exact Hget.
Qed.

(** X2. Whatever the network and the file system do, one task of a batch
    makes at most [max_tries] requests, waits between two requests only
    (so fewer times than it makes requests) and writes at most one file. *)
Theorem task_effect_bounds (env : Env) (dir : string) (u : option string) :
  let t := snd (download_file_to_path env dir u []) in
  gets t <= max_tries
  /\ writes t <= 1
  /\ (gets t = 0 /\ sleeps t = 0 \/ S (sleeps t) = gets t).
Proof.
  destruct u as [url|];
    [|cbn; unfold max_tries; split; [lia | split; [lia | now left]]].
  unfold download_file_to_path, download_file, bind, try_except.
  destruct (on_exception (max_tries - 1) (download_file_once env url) [])
    as [[e|[d ext]] t0] eqn:D;
    apply on_exception_effects in D as (k & Hk & Hg & Hs & Hw & _);
    cbn in Hk, Hg, Hs, Hw.
  - destruct (is_RequestException e); unfold emit, ret; cbn [snd];
      rewrite ?gets_app, ?sleeps_app, ?writes_app; cbn; unfold max_tries;
      repeat split; try lia; right; lia.
  - unfold ret, write_file, bind, emit, check.
    destruct (write_error env _); unfold raise, ret; cbn [snd];
      rewrite ?gets_app, ?sleeps_app, ?writes_app; cbn; unfold max_tries;
      repeat split; try lia; right; lia.
Qed.

(** The loop succeeds at the first attempt that is answered without an
    error status, when the attempts before it fail and the budget reaches
    it. *)
Lemma on_exception_succeeds_after (env : Env) (url : string) (resp : Response)
  (k : nat) :
  forall retries t,
    k <= retries ->
    (forall j, gets t <= j < gets t + k -> attempt_fails env j url = true) ->
    requests_get env (gets t + k) url = inr resp ->
    status_passes resp = true ->
    exists ext t',
      on_exception retries (download_file_once env url) t
      = (inr (content resp, ext), t')
      /\ gets t' = gets t + S k
      /\ sleeps t' = sleeps t + k
      /\ writes t' = writes t.
Proof.
  induction k as [|k IH]; intros retries t Hk Hfail Hget Hst.
  - rewrite Nat.add_0_r in Hget.
    destruct (download_file_once_ok env url resp t Hget Hst) as [ext Hok].
    exists ext, (t ++ [Get url 5])%list.
    split; [now apply on_exception_first_ok|].
    rewrite gets_app, sleeps_app, writes_app. cbn. repeat split; lia.
  - destruct retries as [|n]; [lia|]. cbn [on_exception]. unfold try_except.
    destruct (download_file_once_fails env url t) as (e & -> & He).
    { apply Hfail. lia. }
    rewrite He. unfold bind, emit.
    destruct (IH n ((t ++ [Get url 5]) ++ [Sleep])%list) as (ext & t' & -> & Hg & Hs & Hw).
    + lia.
    + intros j Hj. apply Hfail. rewrite !gets_app in Hj. cbn in Hj. lia.
    + rewrite <- Hget. f_equal. rewrite !gets_app. cbn. lia.
    + exact Hst.
    + exists ext, t'. split; [reflexivity|].
      rewrite !gets_app, !sleeps_app, !writes_app in *. cbn in *.
      repeat split; lia.
Qed.

(** X1. A URL that fails [k] times, [k] below [max_tries], and is then
    answered without an error status: the task returns a path after
    [k + 1] requests and [k] waits, having written one file, which holds
    the body of that answer. *)
Theorem retry_then_success
  (env : Env) (dir url : string) (resp : Response) (k : nat) :
  k < max_tries ->
  (forall j, j < k -> attempt_fails env j url = true) ->
  requests_get env k url = inr resp ->
  status_passes resp = true ->
  (forall p, write_error env p = None) ->
  exists ext t,
    download_file_to_path env dir (Some url) []
    = (inr (Some (os_path_abspath env (PosixPath.join dir [uuid4 env ++ ext]))), t)
    /\ gets t = S k /\ sleeps t = k /\ writes t = 1
    /\ In (WriteFile (PosixPath.join dir [uuid4 env ++ ext]) (content resp)) t.
Proof.
  intros Hk Hfail Hget Hst Hwr.
  destruct (on_exception_succeeds_after env url resp k (max_tries - 1) [])
    as (ext & t1 & Hrun & Hg & Hs & Hw); try assumption.
  - unfold max_tries in *. cbn. lia.
  - intros j Hj. apply Hfail. cbn in Hj. lia.
  - exists ext, (List.app t1 [WriteFile (PosixPath.join dir [uuid4 env ++ ext])
                                        (content resp)]).
    split.
    + unfold download_file_to_path, download_file.
      erewrite bind_ok with (a := Some (content resp, ext)) (t1 := t1).
      * erewrite bind_ok by (apply write_file_ok, Hwr). reflexivity.
      * unfold try_except. erewrite bind_ok by exact Hrun. reflexivity.
    + rewrite gets_app, sleeps_app, writes_app, Hg, Hs, Hw. cbn.
      repeat split; try lia. apply in_or_app. right. now left.
Qed.

Lemma retry_then_success_witness :
  exists ext t,
    download_file_to_path env_flaky "/srv/worker/jobs/job7/downloaded_files"
      (Some "http://x/d") []
    = (inr (Some (os_path_abspath env_flaky
                    (PosixPath.join "/srv/worker/jobs/job7/downloaded_files"
                       [uuid4 env_flaky ++ ext]))), t)
    /\ gets t = 3 /\ sleeps t = 2 /\ writes t = 1
    /\ In (WriteFile (PosixPath.join "/srv/worker/jobs/job7/downloaded_files"
                        [uuid4 env_flaky ++ ext]) body) t.
Proof.
  apply (retry_then_success env_flaky "/srv/worker/jobs/job7/downloaded_files"
           "http://x/d" (mkResponse 200 [] body) 2).
  - unfold max_tries. lia.
  - intros [|[|j]] Hj; [reflexivity | reflexivity | lia].
  - reflexivity.
  - reflexivity.
  - reflexivity.
Defined.

(** X3. In the list a batch call returns, an entry is a path exactly when
    its task wrote a file: a null entry comes with no write, a path with
    one write, of the file the path names in absolute form; the path is
    absolute when the working directory of the task is.  The calling
    thread has only created the download directory. *)
Theorem batch_entries_and_files
  (w : World) (job_id : string) (urls : list (option string))
  (out : list (option string)) (main : trace) (tasks : list trace) :
  download_files_from_urls w job_id (UrlList urls) = BatchReturned out main tasks ->
  main = [Makedirs (batch_directory w job_id)]
  /\ forall i entry, nth_error out i = Some entry ->
       exists t, nth_error tasks i = Some t
         /\ match entry with
            | None => writes t = 0
            | Some p =>
                writes t = 1
                /\ (exists f data, In (WriteFile f data) t
                                   /\ p = os_path_abspath (task_env w i) f)
                /\ (PosixPath.isabs (getcwd (task_env w i)) = true ->
                    PosixPath.isabs p = true)
            end.
Proof.
  intros H. split.
  - rewrite download_files_from_urls_unfold in H.
    destruct (makedirs_error _ _); [discriminate|].
    destruct (executor_map _ _ 0 _); [discriminate|]. now injection H as _ <- _.
  - destruct (batch_returned w job_id urls out main tasks H) as [Hlen Hnth].
    intros i entry Hi.
    assert (Hu : exists u, nth_error urls i = Some u).
    { destruct (nth_error urls i) as [u|] eqn:E; [now exists u|].
      apply nth_error_None in E. rewrite <- Hlen in E.
      apply nth_error_None in E. congruence. }
    destruct Hu as [u Hu].
    destruct (Hnth i u Hu) as (r & t & Hrun & Hout & Htask).
    rewrite Hi in Hout. injection Hout as ->.
    exists t. split; [exact Htask|].
    apply download_file_to_path_returned in Hrun.
    destruct r as [p|]; [|exact Hrun].
    destruct Hrun as (url & resp & ext & t1 & _ & -> & Hw & _ & _ & ->).
    rewrite writes_app, Hw. split; [reflexivity|]. split.
    + eexists _, _. split; [|reflexivity]. apply in_or_app. right. now left.
    + apply abspath_isabs.
Qed.

Lemma batch_entries_and_files_witness :
  exists out main tasks,
    download_files_from_urls sample_world "job7" (UrlList sample_urls)
    = BatchReturned out main tasks
    /\ main = [Makedirs (batch_directory sample_world "job7")]
    /\ (exists p t, nth_error out 4 = Some (Some p) /\ nth_error tasks 4 = Some t
                    /\ writes t = 1 /\ PosixPath.isabs p = true)
    /\ (exists t, nth_error out 3 = Some None /\ nth_error tasks 3 = Some t
                  /\ writes t = 0).
Proof.
  destruct (download_files_from_urls sample_world "job7" (UrlList sample_urls))
    as [e|out main tasks] eqn:E; [vm_compute in E; discriminate|].
  exists out, main, tasks. split; [reflexivity|].
  destruct (batch_entries_and_files sample_world "job7" sample_urls out main tasks E)
    as [Hmain Hent].
  split; [exact Hmain|].
  assert (H4 : exists p, nth_error out 4 = Some (Some p))
    by (vm_compute in E; injection E as <- _ _; now eexists).
  assert (H3 : nth_error out 3 = Some None)
    by (vm_compute in E; now injection E as <- _ _).
  destruct H4 as [p H4]. split.
  - destruct (Hent 4 (Some p) H4) as (t & Ht & Hw & _ & Habs).
    exists p, t. repeat split; try assumption. now apply Habs.
  - destruct (Hent 3 None H3) as (t & Ht & Hw).
    exists t. split; [exact H3|]. split; [exact Ht | exact Hw].
Defined.

(** X4. An exception of [requests.get] that is not a [RequestException]
    is neither retried nor caught: the task raises it after one request,
    without a wait, a message or a write. *)
Theorem unexpected_exception_not_retried
  (env : Env) (dir url : string) (e : exn) :
  requests_get env 0 url = inl e ->
  is_RequestException e = false ->
  download_file_to_path env dir (Some url) [] = (inl e, [Get url 5]).
Proof.
  intros Hget He.
  assert (Honce : download_file_once env url [] = (inl e, [Get url 5])).
  { unfold download_file_once, bind, http_get. cbn [gets filter List.length].
    now rewrite Hget. }
  assert (Hloop : forall n, on_exception n (download_file_once env url) []
                            = (inl e, [Get url 5])).
  { intros [|n]; cbn [on_exception]; [exact Honce|].
    unfold try_except. now rewrite Honce, He. }
  unfold download_file_to_path, download_file, bind, try_except.
  rewrite Hloop. now rewrite He.
Qed.

Lemma unexpected_exception_not_retried_witness :
  download_file_to_path env_crash "/tmp/d" (Some "http://x/a") []
  = (inl (OtherException "unexpected"), [Get "http://x/a" 5]).
Proof.
  apply (unexpected_exception_not_retried env_crash "/tmp/d" "http://x/a").
  - reflexivity.
  - reflexivity.
Defined.

Lemma executor_map_first_error
  (f : Env -> option string -> IO (option string)) (envs : nat -> Env)
  (urls : list (option string)) :
  forall k i u e t,
    nth_error urls i = Some u ->
    f (envs (k + i)) u [] = (inl e, t) ->
    (forall j u', j < i -> nth_error urls j = Some u' ->
                  exists r t', f (envs (k + j)) u' [] = (inr r, t')) ->
    executor_map f envs k urls = inl e.
Proof.
  induction urls as [|u0 rest IH]; intros k i u e t Hi Hf Hbefore.
  - now destruct i.
  - destruct i as [|i]; cbn [executor_map nth_error] in *.
    + injection Hi as ->. rewrite Nat.add_0_r in Hf. now rewrite Hf.
    + destruct (Hbefore 0 u0 (Nat.lt_0_succ _) eq_refl) as (r & t' & H0).
      rewrite Nat.add_0_r in H0. rewrite H0.
      rewrite (IH (S k) i u e t Hi); [reflexivity | |].
      * now rewrite Nat.add_succ_comm.
      * intros j u' Hj Hn. rewrite Nat.add_succ_comm.
        apply (Hbefore (S j) u'); [lia | exact Hn].
Qed.

(** X5. When tasks raise, the batch call raises the exception of the
    first of them in input order: that of the task at index [i] when the
    tasks before it return. *)
Theorem batch_raises_first_error
  (w : World) (job_id : string) (urls : list (option string))
  (i : nat) (u : option string) (e : exn) (t : trace) :
  makedirs_error (main_env w) (batch_directory w job_id) = None ->
  nth_error urls i = Some u ->
  run_task w job_id i u = (inl e, t) ->
  (forall j u', j < i -> nth_error urls j = Some u' ->
                exists r t', run_task w job_id j u' = (inr r, t')) ->
  download_files_from_urls w job_id (UrlList urls) = BatchRaised e.
Proof.
  intros Hmk Hi Hrun Hbefore.
  rewrite download_files_from_urls_unfold, Hmk. simpl as_list.
  now rewrite (executor_map_first_error _ _ urls 0 i u e t Hi Hrun Hbefore).
Qed.

Lemma batch_raises_first_error_witness :
  download_files_from_urls crash_world "job7" (UrlList sample_urls)
  = BatchRaised (OtherException "unexpected").
Proof.
  apply (batch_raises_first_error crash_world "job7" sample_urls 1
           (Some "http://x/b") (OtherException "unexpected") [Get "http://x/b" 5]).
  - reflexivity.
  - reflexivity.
  - reflexivity.
  - intros [|j] u' Hj Hn; [|lia]. injection Hn as <-.
    eexists _, _. vm_compute. reflexivity.
Defined.

Lemma executor_map_nulls
  (f : Env -> option string -> IO (option string)) (envs : nat -> Env) (n : nat) :
  (forall env, f env None [] = (inr None, [])) ->
  forall k, executor_map f envs k (repeat None n)
            = inr (repeat (None, []) n).
Proof.
  intros Hf. induction n as [|n IH]; intros k; cbn [repeat executor_map].
  - reflexivity.
  - now rewrite Hf, IH.
Qed.

(** X6. A batch of null entries only, the empty batch included, creates
    the download directory and returns as many nulls; no task has any
    effect. *)
Theorem batch_of_nulls (w : World) (job_id : string) (n : nat) :
  makedirs_error (main_env w) (batch_directory w job_id) = None ->
  download_files_from_urls w job_id (UrlList (repeat None n))
  = BatchReturned (repeat None n) [Makedirs (batch_directory w job_id)]
                  (repeat [] n).
Proof.
  intros Hmk. rewrite download_files_from_urls_unfold, Hmk. simpl as_list.
  rewrite executor_map_nulls by reflexivity.
  now rewrite !map_repeat.
Qed.

Lemma batch_of_nulls_witness :
  download_files_from_urls sample_world "job7" (UrlList [])
  = BatchReturned [] [Makedirs (batch_directory sample_world "job7")] []
  /\ download_files_from_urls crash_world "job7" (UrlList [None; None])
     = BatchReturned [None; None]
         [Makedirs (batch_directory crash_world "job7")] [[]; []].
Proof.
  split.
  - apply (batch_of_nulls sample_world "job7" 0). reflexivity.
  - apply (batch_of_nulls crash_world "job7" 2). reflexivity.
Defined.

(** ** Failures and effects of the single download *)

Lemma determined_name_step (env : Env) (url : string) (resp : Response)
  (name : string) :
  determined_name env url resp = Some name ->
  match header_matches resp with
  | first :: _ => ret first
  | [] =>
      match UrlParse.urlparse (netloc_valid env) url with
      | Some parsed => ret (PosixPath.basename (UrlParse.path parsed))
      | None => raise (ValueError "urlparse")
      end
  end = ret name.
Proof.
  unfold determined_name. destruct (header_matches resp) as [|first rest].
  - destruct (UrlParse.urlparse (netloc_valid env) url); [|discriminate].
    now intros [= ->].
  - now intros [= ->].
Qed.

(** [file] up to the point where the body is to be written. *)
Lemma file_until_write (env : Env) (url : string) (resp : Response)
  (name : string) :
  makedirs_error env "job_files" = None ->
  requests_get env 0 url = inr resp ->
  determined_name env url resp = Some name ->
  file env url []
  = bind (write_file env
            (PosixPath.join "job_files"
               [uuid4 env ++ "."
                ++ PyStr.remove "." (snd (PosixPath.splitext name))])
            (content resp))
      (fun _ =>
         unziped_directory <-
           (if PyStr.remove "." (snd (PosixPath.splitext name)) =? "zip" then
              os_makedirs env (PosixPath.join "job_files" [uuid4 env]) ;;
              zip_extractall env
                (PosixPath.join "job_files"
                   [uuid4 env ++ "."
                    ++ PyStr.remove "." (snd (PosixPath.splitext name))])
                (PosixPath.join "job_files" [uuid4 env]) ;;
              ret (Some (os_path_abspath env
                           (PosixPath.join "job_files" [uuid4 env])))
            else ret None) ;;
         ret {| file_path :=
                  os_path_abspath env
                    (PosixPath.join "job_files"
                       [uuid4 env ++ "."
                        ++ PyStr.remove "." (snd (PosixPath.splitext name))]);
                type := PyStr.remove "." (snd (PosixPath.splitext name));
                original_name := name;
                extracted_path := unziped_directory |})
      [Makedirs "job_files"; Get url 30].
Proof.
  intros Hmk Hget Hname. unfold file.
  erewrite bind_ok by (apply os_makedirs_ok, Hmk).
  erewrite bind_ok by (apply http_get_ok; exact Hget).
  fold (header_matches resp). rewrite (determined_name_step env url resp name Hname).
  erewrite bind_ok by reflexivity. reflexivity.
Qed.

Lemma bind_raised {A B} (c : IO A) (k : A -> IO B) (t t1 : trace) (e : exn) :
  c t = (inl e, t1) -> bind c k t = (inl e, t1).
Proof. unfold bind. now intros ->. Qed.

Lemma write_file_raised (env : Env) (p : string) (d : list byte) (t : trace)
  (e : exn) :
  write_error env p = Some e ->
  write_file env p d t = (inl e, (t ++ [WriteFile p d])%list).
Proof. unfold write_file, bind, emit, check. now intros ->. Qed.

Lemma zip_extractall_raised (env : Env) (a d : string) (t : trace) (e : exn) :
  extractall_error env a d = Some e ->
  zip_extractall env a d t = (inl e, (t ++ [ExtractAll a d])%list).
Proof. unfold zip_extractall, bind, emit, check. now intros ->. Qed.

(** X7. When the extraction of a zip fails, the exception leaves [file]
    after the archive has been written and the directory created: both
    stay behind, and no record is returned. *)
Theorem extraction_failure_keeps_archive
  (env : Env) (url : string) (resp : Response) (name : string) (e : exn) :
  makedirs_error env "job_files" = None ->
  requests_get env 0 url = inr resp ->
  determined_name env url resp = Some name ->
  PyStr.remove "." (snd (PosixPath.splitext name)) = "zip" ->
  write_error env (PosixPath.join "job_files" [uuid4 env ++ ".zip"]) = None ->
  makedirs_error env (PosixPath.join "job_files" [uuid4 env]) = None ->
  extractall_error env (PosixPath.join "job_files" [uuid4 env ++ ".zip"])
                       (PosixPath.join "job_files" [uuid4 env]) = Some e ->
  file env url []
  = (inl e,
     [Makedirs "job_files"; Get url 30;
      WriteFile (PosixPath.join "job_files" [uuid4 env ++ ".zip"]) (content resp);
      Makedirs (PosixPath.join "job_files" [uuid4 env]);
      ExtractAll (PosixPath.join "job_files" [uuid4 env ++ ".zip"])
                 (PosixPath.join "job_files" [uuid4 env])]).
Proof.
  intros Hmk Hget Hname Hzip Hwr Hmd Hex.
  rewrite (file_until_write env url resp name Hmk Hget Hname), Hzip.
  erewrite bind_ok by (apply write_file_ok, Hwr).
  change ("zip" =? "zip") with true. cbv iota.
  apply bind_raised.
  erewrite bind_ok by (apply os_makedirs_ok, Hmd).
  apply bind_raised. apply zip_extractall_raised, Hex.
Qed.

Lemma extraction_failure_keeps_archive_witness :
  exists t,
    file env_bad_zip "http://x/download" []
    = (inl (BadZipFile "File is not a zip file"), t)
    /\ writes t = 1.
Proof.
  eexists. split.
  - apply (extraction_failure_keeps_archive env_bad_zip "http://x/download"
             (mkResponse 200
                [("Content-Disposition", "attachment; filename=bundle.zip")] body)
             "bundle.zip"); reflexivity.
  - reflexivity.
Defined.

(** X8. [file] fails before anything is written when the directory cannot
    be created (no request is made then) or when [requests.get] raises,
    whatever the class of the exception (one request, no retry); and when
    the write fails, nothing is extracted. *)
Theorem file_fails_early (env : Env) (url : string) (e : exn) :
  (makedirs_error env "job_files" = Some e ->
   file env url [] = (inl e, [Makedirs "job_files"]))
  /\ (makedirs_error env "job_files" = None ->
      requests_get env 0 url = inl e ->
      file env url [] = (inl e, [Makedirs "job_files"; Get url 30]))
  /\ (forall resp name,
        makedirs_error env "job_files" = None ->
        requests_get env 0 url = inr resp ->
        determined_name env url resp = Some name ->
        write_error env
          (PosixPath.join "job_files"
             [uuid4 env ++ "."
              ++ PyStr.remove "." (snd (PosixPath.splitext name))]) = Some e ->
        file env url []
        = (inl e,
           [Makedirs "job_files"; Get url 30;
            WriteFile
              (PosixPath.join "job_files"
                 [uuid4 env ++ "."
                  ++ PyStr.remove "." (snd (PosixPath.splitext name))])
              (content resp)])).
Proof.
  repeat split.
  - intros Hmk. unfold file, bind at 1, os_makedirs, bind, emit, check.
    now rewrite Hmk.
  - intros Hmk Hget. now apply file_transport_error.
  - intros resp name Hmk Hget Hname Hwr.
    rewrite (file_until_write env url resp name Hmk Hget Hname).
    apply bind_raised. apply write_file_raised, Hwr.
Qed.

Lemma file_fails_early_witness :
  file env_down "http://x/y/report.csv" []
  = (inl (RequestException "Connection refused"),
     [Makedirs "job_files"; Get "http://x/y/report.csv" 30]).
Proof.
  destruct (file_fails_early env_down "http://x/y/report.csv"
              (RequestException "Connection refused")) as (_ & Hget & _).
  apply Hget; reflexivity.
Defined.

(** ** Characters a name cannot hold *)

Section Absence.

Variable c : ascii.

Lemma contains_false_rfind (s : string) :
  PyStr.contains c s = false -> (PyStr.rfind c s < 0)%Z.
Proof.
  unfold PyStr.contains. induction s as [|a s IH]; cbn [PyStr.find PyStr.rfind]; [lia|].
  destruct (Ascii.eqb a c); [intros H; cbv in H; discriminate H|].
  destruct (PyStr.find c s <? 0)%Z eqn:F.
  - intros _. apply Z.ltb_lt in F.
    assert (Hs : (PyStr.rfind c s < 0)%Z) by (apply IH; apply Z.leb_gt; lia).
    destruct (0 <=? PyStr.rfind c s)%Z eqn:E; [apply Z.leb_le in E; lia | lia].
  - intros H. apply Z.leb_gt in H. apply Z.ltb_ge in F. lia.
Qed.

Lemma rfind_app_absent (s u : string) :
  (PyStr.rfind c s < 0)%Z -> (PyStr.rfind c u < 0)%Z ->
  (PyStr.rfind c (s ++ u) < 0)%Z.
Proof.
  intros Hs Hu. induction s as [|a s IH]; [exact Hu|].
  cbn [String.append PyStr.rfind] in *.
  destruct (0 <=? PyStr.rfind c s)%Z eqn:E; [apply Z.leb_le in E; lia|].
  apply Z.leb_gt in E. specialize (IH E).
  destruct (Ascii.eqb a c); [lia|].
  destruct (0 <=? PyStr.rfind c (s ++ u))%Z eqn:E2;
    [apply Z.leb_le in E2; lia | lia].
Qed.

Lemma rfind_drop_absent (n : nat) (s : string) :
  (PyStr.rfind c s < Z.of_nat n)%Z -> (PyStr.rfind c (PyStr.drop n s) < 0)%Z.
Proof.
  revert s. induction n as [|n IH]; intros s; [cbn [PyStr.drop]; lia|].
  destruct s as [|a s]; [cbn [PyStr.drop PyStr.rfind]; lia|].
  cbn [PyStr.drop PyStr.rfind]. intros H. apply IH.
  destruct (0 <=? PyStr.rfind c s)%Z eqn:E; [lia | apply Z.leb_gt in E; lia].
Qed.

Lemma rfind_take_absent (n : nat) (s : string) :
  (PyStr.rfind c s < 0)%Z -> (PyStr.rfind c (PyStr.take n s) < 0)%Z.
Proof.
  revert s. induction n as [|n IH]; intros s; [cbn [PyStr.take PyStr.rfind]; lia|].
  destruct s as [|a s]; [cbn [PyStr.take PyStr.rfind]; lia|].
  cbn [PyStr.take PyStr.rfind]. intros H.
  destruct (0 <=? PyStr.rfind c s)%Z eqn:E; [apply Z.leb_le in E; lia|].
  apply Z.leb_gt in E. specialize (IH s E).
  destruct (Ascii.eqb a c); [lia|].
  destruct (0 <=? PyStr.rfind c (PyStr.take n s))%Z eqn:E2;
    [apply Z.leb_le in E2; lia | lia].
Qed.

Lemma rfind_remove_absent (d : ascii) (s : string) :
  (PyStr.rfind c s < 0)%Z -> (PyStr.rfind c (PyStr.remove d s) < 0)%Z.
Proof.
  induction s as [|a s IH]; cbn [PyStr.remove PyStr.rfind]; [lia|].
  intros H.
  destruct (0 <=? PyStr.rfind c s)%Z eqn:E; [apply Z.leb_le in E; lia|].
  apply Z.leb_gt in E. specialize (IH E).
  destruct (Ascii.eqb a c) eqn:Ea; [lia|].
  destruct (Ascii.eqb a d); [exact IH|].
  cbn [PyStr.rfind]. rewrite Ea.
  destruct (0 <=? PyStr.rfind c (PyStr.remove d s))%Z eqn:E2;
    [apply Z.leb_le in E2; lia | lia].
Qed.

(** The text before the first [c] holds no [c]. *)
Lemma take_find_absent (s : string) :
  (PyStr.rfind c (PyStr.take (Z.to_nat (PyStr.find c s)) s) < 0)%Z.
Proof.
  induction s as [|a s IH]; [cbn; lia|].
  cbn [PyStr.find]. destruct (Ascii.eqb a c) eqn:Ea; [cbn; lia|].
  destruct (PyStr.find c s <? 0)%Z eqn:F; [cbn; lia|].
  apply Z.ltb_ge in F.
  replace (Z.to_nat (PyStr.find c s + 1)) with (S (Z.to_nat (PyStr.find c s)))
    by lia.
  cbn [PyStr.take PyStr.rfind]. rewrite Ea.
  destruct (0 <=? PyStr.rfind c (PyStr.take (Z.to_nat (PyStr.find c s)) s))%Z
    eqn:E; [apply Z.leb_le in E; lia | lia].
Qed.

Lemma rfind_head (s : string) : (0 <= PyStr.rfind c (String c s))%Z.
Proof.
  cbn [PyStr.rfind]. rewrite Ascii.eqb_refl.
  destruct (0 <=? PyStr.rfind c s)%Z eqn:E; [apply Z.leb_le in E; lia | lia].
Qed.

End Absence.

(** The extension [splitext] gives holds no slash. *)
Lemma splitext_no_sep (p : string) :
  (PyStr.rfind "/" (snd (PosixPath.splitext p)) < 0)%Z.
Proof.
  unfold PosixPath.splitext, PosixPath.extsep, PosixPath.sep.
  destruct (PyStr.rfind "." p >? PyStr.rfind "/" p)%Z eqn:E; [|cbn; lia].
  destruct (PosixPath.splitext_loop _ _ _ p) as [r|] eqn:L; [|cbn; lia].
  apply splitext_loop_result in L. subst r. cbn [snd]. unfold PyStr.slice_from.
  apply rfind_drop_absent. apply Z.gtb_lt in E.
  pose proof (rfind_lower_bound "/" p). lia.
Qed.

Lemma startswith_absent (x : string) :
  (PyStr.rfind "/" x < 0)%Z -> PyStr.startswith "/" x = false.
Proof.
  intros H. destruct (PyStr.startswith "/" x) eqn:E; [|reflexivity].
  destruct (isabs_inv x E) as [x' ->].
  pose proof (rfind_head "/" x'). lia.
Qed.

Lemma join_job_files (x : string) :
  PyStr.startswith "/" x = false ->
  PosixPath.join "job_files" [x] = "job_files/" ++ x.
Proof.
  intros H. unfold PosixPath.join, PosixPath.join_step. cbn [fold_left].
  now rewrite H.
Qed.

(** ** What a returning call of [file] leaves behind *)

(** X9. A call of [file] that returns has made one request, with a
    timeout of 30 and without waiting or retrying, and has written one
    file: the body of the response, at the path whose absolute form is
    [file_path].  An archive is extracted exactly when [type] is [zip]. *)
Theorem file_effects
  (env : Env) (url : string) (r : DownloadedFile) (t : trace) :
  file env url [] = (inr r, t) ->
  exists resp written,
    requests_get env 0 url = inr resp
    /\ filter is_Get t = [Get url 30]
    /\ sleeps t = 0
    /\ filter is_WriteFile t = [WriteFile written (content resp)]
    /\ file_path r = os_path_abspath env written
    /\ (existsb is_ExtractAll t = true <-> type r = "zip").
Proof.
  intros H.
  destruct (file_returned env url r t H)
    as (resp & Hget & _ & _ & Hpath & _ & ->).
  exists resp, (PosixPath.join "job_files" [uuid4 env ++ "." ++ type r]).
  split; [exact Hget|].
  destruct (type r =? "zip") eqn:E.
  - repeat split; try reflexivity; try exact Hpath.
    intros _. now apply String.eqb_eq.
  - repeat split; try reflexivity; try exact Hpath.
    + intros Hx. cbv in Hx. discriminate Hx.
    + intros Hz. apply String.eqb_neq in E. now destruct E.
Qed.

Lemma file_effects_witness :
  exists r t resp written,
    file env_plain "http://x/y/report.csv" [] = (inr r, t)
    /\ filter is_Get t = [Get "http://x/y/report.csv" 30]
    /\ filter is_WriteFile t = [WriteFile written (content resp)]
    /\ file_path r = os_path_abspath env_plain written.
Proof.
  eexists _, _.
  assert (H : file env_plain "http://x/y/report.csv" []
              = (inr _, _)) by (vm_compute; reflexivity).
  destruct (file_effects env_plain "http://x/y/report.csv" _ _ H)
    as (resp & written & _ & Hg & _ & Hw & Hp & _).
  exists resp, written. repeat split; [exact H | exact Hg | exact Hw | exact Hp].
Defined.

(** X10. Whatever name the server or the URL gives, [type] holds no
    slash.  With a [uuid4] text without slash, every path a returning call
    hands to the file system is therefore [job_files] or directly in it:
    the body goes to [job_files/<uuid>.<type>], whose last component holds
    no slash, and for [type] [zip] that file is extracted into
    [job_files/<uuid>].  The entries [extractall] writes below that
    directory are outside the model. *)
Theorem file_paths_stay_in_job_files
  (env : Env) (url : string) (r : DownloadedFile) (t : trace) :
  file env url [] = (inr r, t) ->
  PyStr.contains "/" (uuid4 env) = false ->
  PyStr.contains "/" (uuid4 env ++ "." ++ type r) = false
  /\ exists resp,
       t = List.app
             [Makedirs "job_files"; Get url 30;
              WriteFile ("job_files/" ++ uuid4 env ++ "." ++ type r)
                        (content resp)]
             (if type r =? "zip"
              then [Makedirs ("job_files/" ++ uuid4 env);
                    ExtractAll ("job_files/" ++ uuid4 env ++ "." ++ type r)
                               ("job_files/" ++ uuid4 env)]
              else []).
Proof.
  intros H Hu.
  destruct (file_returned env url r t H)
    as (resp & _ & _ & Htype & _ & _ & ->).
  apply contains_false_rfind in Hu.
  assert (Hleaf : (PyStr.rfind "/" (uuid4 env ++ "." ++ type r) < 0)%Z).
  { apply rfind_app_absent; [exact Hu|].
    apply (rfind_app_absent "/" "." (type r)); [cbv; reflexivity|].
    rewrite Htype. apply rfind_remove_absent, splitext_no_sep. }
  split; [now apply contains_absent|].
  exists resp.
  now rewrite (join_job_files _ (startswith_absent _ Hleaf)),
    (join_job_files _ (startswith_absent _ Hu)).
Qed.

Lemma file_paths_stay_in_job_files_witness :
  exists r t,
    file env_bare_zip "http://x/download" [] = (inr r, t)
    /\ PyStr.contains "/" (uuid4 env_bare_zip ++ "." ++ type r) = false
    /\ List.length t = 5.
Proof.
  eexists _, _.
  assert (H : file env_bare_zip "http://x/download" []
              = (inr _, _)) by (vm_compute; reflexivity).
  split; [exact H|].
  destruct (file_paths_stay_in_job_files env_bare_zip "http://x/download" _ _ H
              eq_refl) as [Hleaf _].
  split; [exact Hleaf | reflexivity].
Defined.

(** ** Names taken from the URL *)

Ltac absent_in_prefix :=
  unfold PyStr.slice_to;
  first [ apply take_find_absent
        | now apply contains_false_rfind
        | apply rfind_take_absent;
          first [apply take_find_absent | now apply contains_false_rfind] ].

(** The path [urlsplit] gives holds neither [#] nor [?]. *)
Lemma urlsplit_path_clean (nv : string -> bool) (url : string)
  (r : UrlParse.SplitResult) :
  UrlParse.urlsplit nv url = Some r ->
  (PyStr.rfind "#" (UrlParse.s_path r) < 0)%Z
  /\ (PyStr.rfind "?" (UrlParse.s_path r) < 0)%Z.
Proof.
  unfold UrlParse.urlsplit.
  set (u0 := PyStr.remove PyStr.LF _).
  destruct (_ && _ && _)%bool; cbv beta iota zeta.
  all: destruct (PyStr.take 2 _ =? "//"); cbv beta iota zeta.
  all: try destruct (UrlParse.splitnetloc _) as [netloc rest]; cbv beta iota zeta.
  all: destruct (_ && negb _ || _ && negb _)%bool; try discriminate.
  all: destruct (_ && _ && negb _)%bool; try discriminate.
  all: destruct (PyStr.contains "#" _) eqn:Eh;
    unfold PyStr.split_once; cbv beta iota zeta.
  all: destruct (PyStr.contains "?" _) eqn:Eq; cbv beta iota zeta.
  all: try destruct (negb _ && _ && _)%bool; try discriminate.
  all: intros [= <-]; cbn [UrlParse.s_path]; split; absent_in_prefix.
Qed.

(** The path [urlparse] gives holds neither [#] nor [?]. *)
Lemma urlparse_path_clean (nv : string -> bool) (url : string)
  (parsed : UrlParse.ParseResult) :
  UrlParse.urlparse nv url = Some parsed ->
  (PyStr.rfind "#" (UrlParse.path parsed) < 0)%Z
  /\ (PyStr.rfind "?" (UrlParse.path parsed) < 0)%Z.
Proof.
  unfold UrlParse.urlparse.
  destruct (UrlParse.urlsplit nv url) as [r|] eqn:E; [|discriminate].
  destruct (urlsplit_path_clean nv url r E) as [Hh Hq].
  destruct (_ && _)%bool; cbv beta iota zeta.
  - unfold UrlParse.splitparams.
    destruct (PyStr.contains "/" _); cbv beta iota zeta;
      [destruct (_ <? 0)%Z|]; intros [= <-]; cbn [UrlParse.path];
      split; unfold PyStr.slice_to;
      first [assumption | now apply rfind_take_absent].
  - intros [= <-]. now split.
Qed.

(** X11. When the header gives no file name, [original_name] comes from
    the path of the URL alone: it holds no slash, and nothing of a query
    or a fragment, so neither [?] nor [#]. *)
Theorem url_name_is_clean
  (env : Env) (url : string) (resp : Response) (r : DownloadedFile) (t : trace) :
  requests_get env 0 url = inr resp ->
  header_matches resp = [] ->
  file env url [] = (inr r, t) ->
  PyStr.contains "/" (original_name r) = false
  /\ PyStr.contains "?" (original_name r) = false
  /\ PyStr.contains "#" (original_name r) = false.
Proof.
  intros Hget Hnone H.
  destruct (file_returned env url r t H) as (resp' & Hget' & Hname & _).
  rewrite Hget in Hget'. injection Hget' as <-.
  rewrite Hnone in Hname. destruct Hname as (parsed & Hp & ->).
  destruct (urlparse_path_clean _ _ _ Hp) as [Hh Hq].
  unfold PosixPath.basename, PyStr.slice_from, PosixPath.sep.
  pose proof (rfind_lower_bound "/" (UrlParse.path parsed)) as Hs.
  repeat split; apply contains_absent; apply rfind_drop_absent; lia.
Qed.

Lemma url_name_is_clean_witness :
  exists r t,
    file env_plain "http://x/y/report.csv?token=a/b#top" [] = (inr r, t)
    /\ original_name r = "report.csv"
    /\ PyStr.contains "/" (original_name r) = false.
Proof.
  eexists _, _.
  assert (H : file env_plain "http://x/y/report.csv?token=a/b#top" []
              = (inr _, _)) by (vm_compute; reflexivity).
  split; [exact H|]. split; [reflexivity|].
  apply (url_name_is_clean env_plain "http://x/y/report.csv?token=a/b#top"
           (mkResponse 200 [] body) _ _ eq_refl eq_refl H).
Defined.

(** ** Names without an extension *)

Lemma rfind_app_bound (c : ascii) (s u : string) :
  (PyStr.rfind c u < 0)%Z -> (PyStr.rfind c (s ++ u) < PyStr.len s)%Z.
Proof.
  intros Hu. unfold PyStr.len.
  induction s as [|a s IH]; [cbn [String.append String.length]; lia|].
  cbn [String.append String.length PyStr.rfind].
  destruct (0 <=? PyStr.rfind c (s ++ u))%Z; destruct (Ascii.eqb a c); lia.
Qed.

Lemma all_dots_no_sep (dots : string) :
  PyStr.all_chars (Ascii.eqb ".") dots = true -> (PyStr.rfind "/" dots < 0)%Z.
Proof.
  induction dots as [|a s IH]; cbn [PyStr.all_chars PyStr.rfind]; [lia|].
  intros H. apply andb_prop in H as [Ha Hs]. specialize (IH Hs).
  apply Ascii.eqb_eq in Ha. subst a.
  destruct (0 <=? PyStr.rfind "/" s)%Z eqn:E; [apply Z.leb_le in E; lia|].
  now cbn.
Qed.

(** Within a run of dots every character is a dot. *)
Lemma all_dots_char (dots stem : string) (k : nat) :
  PyStr.all_chars (Ascii.eqb ".") dots = true ->
  k < String.length dots ->
  PyStr.take 1 (PyStr.drop k (dots ++ stem)) = ".".
Proof.
  revert k. induction dots as [|a s IH]; intros k H Hk;
    [cbn [String.length] in Hk; lia|].
  cbn [PyStr.all_chars] in H. apply andb_prop in H as [Ha Hs].
  apply Ascii.eqb_eq in Ha. subst a.
  destruct k as [|k]; [reflexivity|].
  cbn [String.append PyStr.drop]. apply IH; [exact Hs|].
  cbn [String.length] in Hk. lia.
Qed.

(** The loop of [splitext] runs to its end over leading dots. *)
Lemma splitext_loop_dots (p : string) (dotIndex : Z) (n : nat) :
  forall filenameIndex : Z,
    (0 <= filenameIndex)%Z ->
    (forall k, Z.to_nat filenameIndex <= k < Z.to_nat filenameIndex + n ->
               PyStr.take 1 (PyStr.drop k p) = ".") ->
    PosixPath.splitext_loop n filenameIndex dotIndex p = None.
Proof.
  induction n as [|n IH]; intros f Hf Hdots; [reflexivity|].
  cbn [PosixPath.splitext_loop]. unfold PyStr.slice_from at 1.
  rewrite (Hdots (Z.to_nat f)) by lia.
  change (negb ("." =? String PosixPath.extsep "")) with false. cbv iota.
  apply IH; [lia|]. intros k Hk. apply Hdots. lia.
Qed.

(** A name made of dots followed by text without dot or slash has no
    extension. *)
Lemma splitext_no_extension (dots stem : string) :
  PyStr.all_chars (Ascii.eqb ".") dots = true ->
  PyStr.contains "." stem = false ->
  PyStr.contains "/" stem = false ->
  snd (PosixPath.splitext (dots ++ stem)) = "".
Proof.
  intros Hdots Hdot Hsep.
  apply contains_false_rfind in Hdot. apply contains_false_rfind in Hsep.
  pose proof (rfind_app_bound "." dots stem Hdot) as Hbound.
  pose proof (rfind_app_absent "/" dots stem (all_dots_no_sep dots Hdots) Hsep)
    as Hnosep.
  pose proof (rfind_lower_bound "/" (dots ++ stem)) as Hlow.
  unfold PosixPath.splitext, PosixPath.sep, PosixPath.extsep.
  replace (PyStr.rfind "/" (dots ++ stem)) with (-1)%Z by lia.
  destruct (_ >? _)%Z; [|reflexivity].
  rewrite splitext_loop_dots; [reflexivity | lia |].
  intros k Hk. apply all_dots_char; [exact Hdots|].
  unfold PyStr.len in Hbound. lia.
Qed.

(** X12. A name without extension, that is dots followed by text without
    dot or slash (an empty last path segment, [README], [.bashrc]), gives
    an empty [type]: the file is written as [job_files/<uuid>.] with
    nothing after the dot, and nothing is extracted. *)
Theorem name_without_extension
  (env : Env) (url : string) (resp : Response) (dots stem : string) :
  makedirs_error env "job_files" = None ->
  requests_get env 0 url = inr resp ->
  determined_name env url resp = Some (dots ++ stem) ->
  PyStr.all_chars (Ascii.eqb ".") dots = true ->
  PyStr.contains "." stem = false ->
  PyStr.contains "/" stem = false ->
  write_error env (PosixPath.join "job_files" [uuid4 env ++ "."]) = None ->
  file env url []
  = (inr {| file_path :=
              os_path_abspath env (PosixPath.join "job_files" [uuid4 env ++ "."]);
            type := "";
            original_name := dots ++ stem;
            extracted_path := None |},
     [Makedirs "job_files"; Get url 30;
      WriteFile (PosixPath.join "job_files" [uuid4 env ++ "."]) (content resp)]).
Proof.
  intros Hmk Hget Hname Hdots Hdot Hsep Hwr.
  rewrite (file_until_write env url resp (dots ++ stem) Hmk Hget Hname).
  rewrite (splitext_no_extension dots stem Hdots Hdot Hsep).
  cbn [PyStr.remove].
  erewrite bind_ok by (apply write_file_ok, Hwr).
  reflexivity.
Qed.

Lemma name_without_extension_witness :
  exists r t,
    file env_plain "http://x/home/.bashrc" [] = (inr r, t)
    /\ original_name r = ".bashrc" /\ type r = "" /\ extracted_path r = None.
Proof.
  eexists _, _. split.
  - apply (name_without_extension env_plain "http://x/home/.bashrc"
             (mkResponse 200 [] body) "." "bashrc"); reflexivity.
  - repeat split.
Defined.

(** ** Positions in a concatenation *)

Section Positions.

Variable c : ascii.

Lemma find_lower_bound (s : string) : (-1 <= PyStr.find c s)%Z.
Proof.
  induction s as [|a s IH]; cbn [PyStr.find]; [lia|].
  destruct (Ascii.eqb a c); [lia|].
  destruct (PyStr.find c s <? 0)%Z eqn:E; [lia | apply Z.ltb_ge in E; lia].
Qed.

Lemma rfind_contains (s : string) :
  (0 <= PyStr.rfind c s)%Z -> PyStr.contains c s = true.
Proof.
  intros H. destruct (PyStr.contains c s) eqn:E; [reflexivity|].
  apply contains_false_rfind in E. lia.
Qed.

Lemma find_app_absent (s u : string) :
  (PyStr.rfind c s < 0)%Z ->
  PyStr.find c (s ++ u)
  = (if (PyStr.find c u <? 0)%Z then -1 else PyStr.len s + PyStr.find c u)%Z.
Proof.
  unfold PyStr.len. pose proof (find_lower_bound u) as Hu.
  induction s as [|a s IH]; cbn [String.append String.length PyStr.rfind PyStr.find].
  - intros _. destruct (PyStr.find c u <? 0)%Z eqn:E; [apply Z.ltb_lt in E|]; lia.
  - destruct (0 <=? PyStr.rfind c s)%Z eqn:E; [apply Z.leb_le in E; lia|].
    apply Z.leb_gt in E. destruct (Ascii.eqb a c); [lia|]. intros _.
    rewrite (IH E).
    destruct (PyStr.find c u <? 0)%Z eqn:F; [reflexivity|].
    apply Z.ltb_ge in F.
    destruct (Z.of_nat (String.length s) + PyStr.find c u <? 0)%Z eqn:G;
      [apply Z.ltb_lt in G|]; lia.
Qed.

(** The last [c] of [a ++ c :: b] is the one shown when [b] has none. *)
Lemma rfind_app_last (a b : string) :
  (PyStr.rfind c b < 0)%Z -> PyStr.rfind c (a ++ String c b) = PyStr.len a.
Proof.
  intros Hb. unfold PyStr.len.
  induction a as [|x a IH]; cbn [String.append String.length PyStr.rfind].
  - rewrite Ascii.eqb_refl.
    destruct (0 <=? PyStr.rfind c b)%Z eqn:E; [apply Z.leb_le in E; lia | reflexivity].
  - rewrite IH.
    destruct (0 <=? Z.of_nat (String.length a))%Z eqn:E;
      [lia | apply Z.leb_gt in E; lia].
Qed.

Lemma rfind_decompose (s : string) :
  (0 <= PyStr.rfind c s)%Z ->
  exists a b, s = a ++ String c b /\ (PyStr.rfind c b < 0)%Z.
Proof.
  induction s as [|x s IH]; cbn [PyStr.rfind]; [lia|].
  destruct (0 <=? PyStr.rfind c s)%Z eqn:E.
  - apply Z.leb_le in E. intros _. destruct (IH E) as (a & b & -> & Hb).
    now exists (String x a), b.
  - apply Z.leb_gt in E. destruct (Ascii.eqb x c) eqn:Ex; [|lia].
    apply Ascii.eqb_eq in Ex. subst x. intros _. now exists "", s.
Qed.

(** The first piece of a split is the text before the first [c]. *)
Lemma hd_split_find (s : string) :
  (0 <= PyStr.find c s)%Z ->
  hd "" (PyStr.split c s) = PyStr.take (Z.to_nat (PyStr.find c s)) s.
Proof.
  induction s as [|a s IH]; cbn [PyStr.find PyStr.split]; [lia|].
  destruct (Ascii.eqb a c); [reflexivity|].
  destruct (PyStr.find c s <? 0)%Z eqn:E; [lia|].
  apply Z.ltb_ge in E. intros _. specialize (IH E).
  replace (Z.to_nat (PyStr.find c s + 1)) with (S (Z.to_nat (PyStr.find c s)))
    by lia.
  cbn [PyStr.take]. rewrite <- IH.
  now destruct (PyStr.split c s).
Qed.

End Positions.

Lemma append_assoc (a b d : string) : (a ++ b) ++ d = a ++ b ++ d.
Proof. induction a as [|x a IH]; cbn [String.append]; [reflexivity | now rewrite IH]. Qed.

Lemma length_append (a b : string) :
  String.length (a ++ b) = String.length a + String.length b.
Proof. induction a as [|x a IH]; cbn [String.append String.length]; [reflexivity | now rewrite IH]. Qed.

Lemma take_app_add (n : nat) (a u : string) :
  PyStr.take (String.length a + n) (a ++ u) = a ++ PyStr.take n u.
Proof.
  induction a as [|x a IH]; [reflexivity|].
  cbn [String.append String.length Nat.add PyStr.take]. now rewrite IH.
Qed.

Lemma drop_app_add (n : nat) (a u : string) :
  PyStr.drop (String.length a + n) (a ++ u) = PyStr.drop n u.
Proof. induction a as [|x a IH]; [reflexivity | exact IH]. Qed.

Lemma drop_app_len (a u : string) : PyStr.drop (String.length a) (a ++ u) = u.
Proof. induction a as [|x a IH]; [reflexivity | exact IH]. Qed.

Lemma take_all (s : string) : PyStr.take (String.length s) s = s.
Proof. induction s as [|x s IH]; cbn [String.length PyStr.take]; [reflexivity | now rewrite IH]. Qed.

Lemma before_first_cases (c : ascii) (s : string) :
  before_first c s
  = if PyStr.contains c s then PyStr.take (Z.to_nat (PyStr.find c s)) s else s.
Proof.
  unfold before_first. destruct (PyStr.contains c s) eqn:E.
  - apply hd_split_find. unfold PyStr.contains in E. now apply Z.leb_le in E.
  - now rewrite (split_absent c s (contains_false_rfind c s E)).
Qed.

(** ** The base name of the path [urlparse] gives *)

(** For a path that starts with a slash, cutting the parameters off and
    taking the base name gives the last segment up to its first [;]. *)
Lemma basename_splitparams (p : string) :
  PyStr.startswith "/" p = true ->
  PosixPath.basename (fst (UrlParse.splitparams p))
  = before_first ";" (PosixPath.basename p).
Proof.
  intros Habs. destruct (isabs_inv p Habs) as [p' ->].
  destruct (rfind_decompose "/" (String "/" p') (rfind_head "/" p'))
    as (a & b & -> & Hb).
  assert (Hbase : forall tl, (PyStr.rfind "/" tl < 0)%Z ->
            PosixPath.basename (a ++ String "/" tl) = tl).
  { intros tl Htl. unfold PosixPath.basename, PosixPath.sep, PyStr.slice_from.
    rewrite (rfind_app_last "/" a tl Htl). unfold PyStr.len.
    replace (Z.to_nat (Z.of_nat (String.length a) + 1))
      with (String.length a + 1) by lia.
    now rewrite drop_app_add. }
  rewrite (Hbase b Hb), before_first_cases.
  unfold UrlParse.splitparams.
  rewrite (rfind_contains "/" (a ++ String "/" b))
    by (rewrite (rfind_app_last "/" a b Hb); unfold PyStr.len; lia).
  rewrite (rfind_app_last "/" a b Hb).
  unfold PyStr.find_from, PyStr.slice_from, PyStr.len.
  rewrite Nat2Z.id, drop_app_len. cbn [PyStr.find].
  change (Ascii.eqb "/" ";") with false. cbv iota.
  unfold PyStr.contains. pose proof (find_lower_bound ";" b) as Hlow.
  destruct (PyStr.find ";" b <? 0)%Z eqn:E.
  - apply Z.ltb_lt in E. change (-1 <? 0)%Z with true. cbv iota.
    change (-1 <? 0)%Z with true. cbv iota. cbn [fst].
    rewrite (Hbase b Hb).
    destruct (0 <=? PyStr.find ";" b)%Z eqn:F; [apply Z.leb_le in F; lia | reflexivity].
  - apply Z.ltb_ge in E.
    destruct (PyStr.find ";" b + 1 <? 0)%Z eqn:F; [apply Z.ltb_lt in F; lia|].
    destruct (Z.of_nat (String.length a) + (PyStr.find ";" b + 1) <? 0)%Z eqn:G;
      [apply Z.ltb_lt in G; lia|].
    cbn [fst]. unfold PyStr.slice_to.
    replace (Z.to_nat (Z.of_nat (String.length a) + (PyStr.find ";" b + 1)))
      with (String.length a + S (Z.to_nat (PyStr.find ";" b))) by lia.
    rewrite take_app_add. cbn [PyStr.take].
    rewrite (Hbase _ (rfind_take_absent "/" _ b Hb)).
    destruct (0 <=? PyStr.find ";" b)%Z eqn:H0; [reflexivity | apply Z.leb_gt in H0; lia].
Qed.

(** ** [urlsplit] on a well-formed URL *)

Lemma splitnetloc_parts (a r : string) :
  lacks ["/"; "?"; "#"]%char a = true ->
  starts_with_delimiter r ->
  UrlParse.splitnetloc ("//" ++ a ++ r) = (a, r).
Proof.
  unfold lacks. cbn [forallb]. intros Ha Hr.
  apply andb_prop in Ha as [H1 Ha]. apply andb_prop in Ha as [H2 Ha].
  apply andb_prop in Ha as [H3 _].
  apply negb_true_iff, contains_false_rfind in H1, H2, H3.
  unfold UrlParse.splitnetloc, PyStr.find_from. cbv zeta.
  change (PyStr.slice_from 2 ("//" ++ a ++ r)) with (a ++ r).
  rewrite (find_app_absent "/" a r H1), (find_app_absent "?" a r H2),
    (find_app_absent "#" a r H3).
  change (PyStr.len ("//" ++ a ++ r)) with (Z.of_nat (S (S (String.length (a ++ r))))).
  rewrite length_append. unfold PyStr.len.
  pose proof (find_lower_bound "/" r) as L1.
  pose proof (find_lower_bound "?" r) as L2.
  pose proof (find_lower_bound "#" r) as L3.
  match goal with
  | |- (PyStr.slice_from 2 (PyStr.slice_to ?d _), _) = _ =>
      assert (Hd : d = (2 + Z.of_nat (String.length a))%Z)
  end.
  { assert (Hlen : r = "" -> String.length r = 0) by now intros ->.
    assert (Hf : r = "" -> PyStr.find "/" r = (-1)%Z /\ PyStr.find "?" r = (-1)%Z
                           /\ PyStr.find "#" r = (-1)%Z) by now intros ->.
    destruct (Z.ltb_spec (PyStr.find "/" r) 0);
      destruct (Z.ltb_spec (PyStr.find "?" r) 0);
      destruct (Z.ltb_spec (PyStr.find "#" r) 0); cbv iota;
      repeat match goal with
             | |- context [(?x <? ?y)%Z] => destruct (Z.ltb_spec x y); cbv iota
             end;
      repeat match goal with
             | |- context [(?x >=? ?y)%Z] =>
                 rewrite (Z.geb_leb x y); destruct (Z.leb_spec y x); cbv iota
             end;
      destruct Hr as [Hr | Hr]; try (specialize (Hlen Hr); specialize (Hf Hr));
      lia. }
  rewrite Hd. unfold PyStr.slice_to, PyStr.slice_from.
  replace (Z.to_nat (2 + Z.of_nat (String.length a)))
    with (S (S (String.length a + 0))) by lia.
  change (Z.to_nat 2) with 2.
  cbn [String.append PyStr.take PyStr.drop].
  rewrite take_app_add, drop_app_add. cbn [PyStr.take PyStr.drop].
  now rewrite append_empty_r.
Qed.

Lemma split_once_app (c : ascii) (s u : string) :
  (PyStr.rfind c s < 0)%Z ->
  PyStr.contains c (s ++ String c u) = true
  /\ PyStr.split_once c (s ++ String c u) = (s, u).
Proof.
  intros Hs. unfold PyStr.contains, PyStr.split_once.
  rewrite (find_app_absent c s (String c u) Hs). cbn [PyStr.find].
  rewrite Ascii.eqb_refl. change (0 <? 0)%Z with false. cbv iota.
  unfold PyStr.len, PyStr.slice_to, PyStr.slice_from. split.
  - apply Z.leb_le. lia.
  - replace (Z.to_nat (Z.of_nat (String.length s) + 0)) with (String.length s + 0)
      by lia.
    replace (Z.to_nat (Z.of_nat (String.length s) + 0 + 1))
      with (String.length s + 1) by lia.
    rewrite take_app_add, drop_app_add. cbn [PyStr.take PyStr.drop].
    now rewrite append_empty_r.
Qed.

Lemma lacks_cons (c : ascii) (cs : list ascii) (s : string) :
  lacks (c :: cs) s = true ->
  (PyStr.rfind c s < 0)%Z /\ lacks cs s = true.
Proof.
  unfold lacks. cbn [forallb]. intros H. apply andb_prop in H as [Hc Hcs].
  split; [|exact Hcs]. now apply contains_false_rfind, negb_true_iff.
Qed.

(** The first steps of [urlsplit] on [sch://x], a text without tab,
    carriage return or line feed ([C1], [C2], [C3]) whose scheme [sch]
    ends at index [i]: nothing is stripped, the scheme is split off and
    the text goes on with [//]. *)
Ltac split_after_scheme sch i x :=
  unfold UrlParse.urlsplit; cbv zeta;
  change (PyStr.lstrip UrlParse.c0_control_or_space (sch ++ "://" ++ x))
    with (sch ++ "://" ++ x);
  match goal with
  | C1 : (PyStr.rfind PyStr.TAB _ < 0)%Z, C2 : (PyStr.rfind PyStr.CR _ < 0)%Z,
    C3 : (PyStr.rfind PyStr.LF _ < 0)%Z |- _ =>
      rewrite (remove_absent _ _ C1), (remove_absent _ _ C2),
        (remove_absent _ _ C3)
  end;
  change (PyStr.find ":" (sch ++ "://" ++ x)) with i;
  match goal with |- context [if ?c then _ else _] => change c with true end;
  cbv beta iota;
  change (PyStr.slice_from (i + 1) (sch ++ "://" ++ x)) with ("//" ++ x);
  change (PyStr.lower (PyStr.slice_to i (sch ++ "://" ++ x))) with sch;
  change (PyStr.take 2 ("//" ++ x) =? "//") with true; cbv beta iota.

(** On a well-formed URL [urlsplit] gives the parts back. *)
Lemma urlsplit_parts (nv : string -> bool) (u : UrlParts) :
  well_formed u = true ->
  UrlParse.urlsplit nv (url_text u)
  = Some (UrlParse.mkSplit (u_scheme u) (u_authority u) (u_path u)
            (match u_query u with Some q => q | None => "" end)
            (match u_fragment u with Some f => f | None => "" end)).
Proof.
  destruct u as [sch A P Q F]. unfold well_formed, url_text.
  cbn [u_scheme u_authority u_path u_query u_fragment]. intros H.
  apply andb_prop in H as [H Hctl]. apply andb_prop in H as [H HQ].
  apply andb_prop in H as [H HP]. apply andb_prop in H as [H Hpath].
  apply andb_prop in H as [H Hascii]. apply andb_prop in H as [Hsch HA].
  apply lacks_cons in HA as [A1 HA]. apply lacks_cons in HA as [A2 HA].
  apply lacks_cons in HA as [A3 HA]. apply lacks_cons in HA as [A4 HA].
  apply lacks_cons in HA as [A5 _].
  apply lacks_cons in HP as [P1 HP]. apply lacks_cons in HP as [P2 _].
  apply lacks_cons in HQ as [Q1 _].
  apply lacks_cons in Hctl as [C1 Hctl]. apply lacks_cons in Hctl as [C2 Hctl].
  apply lacks_cons in Hctl as [C3 _].
  assert (Hdelim : starts_with_delimiter
                     (P ++ opt_part "?" Q ++ opt_part "#" F)).
  { unfold starts_with_delimiter.
    apply orb_prop in Hpath as [Hp | Hp].
    - apply String.eqb_eq in Hp. subst P.
      destruct Q as [q|]; [right; right; left; reflexivity|].
      destruct F as [f|]; [right; right; right; reflexivity | left; reflexivity].
    - destruct (isabs_inv P Hp) as [p' ->]. right. left. reflexivity. }
  assert (Hnet : lacks ["/"; "?"; "#"]%char A = true).
  { unfold lacks. cbn [forallb].
    now rewrite (contains_absent _ _ A1), (contains_absent _ _ A2),
      (contains_absent _ _ A3). }
  assert (Hfrag :
            (if PyStr.contains "#" (P ++ opt_part "?" Q ++ opt_part "#" F)
             then PyStr.split_once "#" (P ++ opt_part "?" Q ++ opt_part "#" F)
             else (P ++ opt_part "?" Q ++ opt_part "#" F, ""))
            = (P ++ opt_part "?" Q,
               match F with Some f => f | None => "" end)).
  { assert (Hno : (PyStr.rfind "#" (P ++ opt_part "?" Q) < 0)%Z)
      by now apply rfind_app_absent.
    destruct F as [f|]; cbn [opt_part].
    - rewrite <- append_assoc.
      destruct (split_once_app "#" _ f Hno) as [-> ->]. reflexivity.
    - rewrite (append_empty_r (opt_part "?" Q)).
      now rewrite (contains_absent _ _ Hno). }
  assert (Hquery :
            (if PyStr.contains "?" (P ++ opt_part "?" Q)
             then PyStr.split_once "?" (P ++ opt_part "?" Q)
             else (P ++ opt_part "?" Q, ""))
            = (P, match Q with Some q => q | None => "" end)).
  { destruct Q as [q|]; cbn [opt_part].
    - destruct (split_once_app "?" P q P1) as [-> ->]. reflexivity.
    - rewrite append_empty_r. now rewrite (contains_absent _ _ P1). }
  set (X := A ++ P ++ opt_part "?" Q ++ opt_part "#" F) in *.
  apply orb_prop in Hsch as [Hs | Hs]; apply String.eqb_eq in Hs; subst sch.
  - split_after_scheme "http" 4%Z X.
    subst X. rewrite (splitnetloc_parts A _ Hnet Hdelim). cbv beta iota.
    rewrite (contains_absent _ _ A4), (contains_absent _ _ A5).
    cbn [andb orb negb]. rewrite Hfrag. cbv beta iota. rewrite Hquery.
    cbv beta iota. rewrite Hascii. cbn [negb]. rewrite andb_false_r.
    reflexivity.
  - split_after_scheme "https" 5%Z X.
    subst X. rewrite (splitnetloc_parts A _ Hnet Hdelim). cbv beta iota.
    rewrite (contains_absent _ _ A4), (contains_absent _ _ A5).
    cbn [andb orb negb]. rewrite Hfrag. cbv beta iota. rewrite Hquery.
    cbv beta iota. rewrite Hascii. cbn [negb]. rewrite andb_false_r.
    reflexivity.
Qed.

Lemma well_formed_scheme (u : UrlParts) :
  well_formed u = true -> u_scheme u = "http" \/ u_scheme u = "https".
Proof.
  unfold well_formed. intros H. repeat (apply andb_prop in H as [H _]).
  apply orb_prop in H as [H | H]; apply String.eqb_eq in H; auto.
Qed.

Lemma well_formed_path (u : UrlParts) :
  well_formed u = true ->
  u_path u = "" \/ PyStr.startswith "/" (u_path u) = true.
Proof.
  unfold well_formed. intros H. do 3 (apply andb_prop in H as [H _]).
  apply andb_prop in H as [_ H].
  apply orb_prop in H as [H | H]; [left; now apply String.eqb_eq | now right].
Qed.

(** On a well-formed URL [urlparse] returns, and the base name of its
    path is the last segment of the URL's path up to its first [;]. *)
Lemma urlparse_parts (nv : string -> bool) (u : UrlParts) :
  well_formed u = true ->
  exists parsed,
    UrlParse.urlparse nv (url_text u) = Some parsed
    /\ PosixPath.basename (UrlParse.path parsed)
       = before_first ";" (last_path_segment (u_path u)).
Proof.
  intros Hwf. unfold UrlParse.urlparse.
  rewrite (urlsplit_parts nv u Hwf).
  cbn [UrlParse.s_scheme UrlParse.s_path UrlParse.s_netloc UrlParse.s_query
       UrlParse.s_fragment].
  assert (Huses : existsb (String.eqb (u_scheme u)) UrlParse.uses_params = true)
    by (destruct (well_formed_scheme u Hwf) as [-> | ->]; reflexivity).
  rewrite Huses, andb_true_l, <- basename_last_path_segment.
  destruct (PyStr.contains ";" (u_path u)) eqn:E.
  - destruct (well_formed_path u Hwf) as [Hp | Hp];
      [rewrite Hp in E; discriminate E|].
    destruct (UrlParse.splitparams (u_path u)) as [url params] eqn:S.
    eexists. split; [reflexivity|]. cbn [UrlParse.path].
    change url with (fst (url, params)). rewrite <- S.
    now apply basename_splitparams.
  - eexists. split; [reflexivity|]. cbn [UrlParse.path].
    rewrite before_first_cases.
    assert (Hno : PyStr.contains ";" (PosixPath.basename (u_path u)) = false).
    { apply contains_absent. unfold PosixPath.basename, PyStr.slice_from.
      apply rfind_drop_absent. apply contains_false_rfind in E. lia. }
    now rewrite Hno.
Qed.

(** ** The name taken from the URL *)

(** C9, as amended. For an http or https URL given by its parts, when the
    response carries no Content-Disposition header: a call of [file] that
    returns has as [original_name] the last segment of the URL's path up
    to its first [;], which is the whole segment when it holds no [;];
    the call does return when the directories and the file can be
    written and an archive extracted; and for [http://x/y/report.csv] it
    returns, as soon as [job_files] and the file can be written, a record
    with [original_name] [report.csv], [type] [csv] and a null
    [extracted_path]. *)
Theorem original_name_from_url (env : Env) (u : UrlParts) (resp : Response) :
  well_formed u = true ->
  requests_get env 0 (url_text u) = inr resp ->
  headers_contains "Content-Disposition" (headers resp) = false ->
  (forall r t, file env (url_text u) [] = (inr r, t) ->
     original_name r = before_first ";" (last_path_segment (u_path u))
     /\ (PyStr.contains ";" (last_path_segment (u_path u)) = false ->
         original_name r = last_path_segment (u_path u)))
  /\ ((forall p, makedirs_error env p = None) ->
      (forall p, write_error env p = None) ->
      (forall a d, extractall_error env a d = None) ->
      exists r t, file env (url_text u) [] = (inr r, t))
  /\ (u = report_csv ->
      makedirs_error env "job_files" = None ->
      (forall p, write_error env p = None) ->
      exists r t, file env (url_text u) [] = (inr r, t)
                  /\ original_name r = "report.csv"
                  /\ type r = "csv"
                  /\ extracted_path r = None).
Proof.
  intros Hwf Hget Hnone.
  destruct (urlparse_parts (netloc_valid env) u Hwf) as (parsed & Hparsed & Hbase).
  pose proof (header_matches_no_header resp Hnone) as Hmatch.
  split; [|split].
  - intros r t H.
    destruct (file_returned env (url_text u) r t H) as (resp' & Hget' & Hname & _).
    rewrite Hget in Hget'. injection Hget' as <-.
    rewrite Hmatch in Hname. destruct Hname as (parsed' & Hp & Hn).
    rewrite Hparsed in Hp. injection Hp as <-.
    rewrite Hn, Hbase. split; [reflexivity|].
    intros Hno. rewrite before_first_cases. now rewrite Hno.
  - intros Hmk Hwr Hex.
    apply (file_returns env (url_text u) resp Hget); try assumption.
    right. rewrite Hparsed. discriminate.
  - intros -> Hmk Hwr.
    assert (Hname : determined_name env (url_text report_csv) resp
                    = Some "report.csv")
      by (unfold determined_name; rewrite Hmatch; reflexivity).
    rewrite (file_until_write env _ resp "report.csv" Hmk Hget Hname).
    change (PyStr.remove "." (snd (PosixPath.splitext "report.csv"))) with "csv".
    erewrite bind_ok by (apply write_file_ok, Hwr).
    change ("csv" =? "zip") with false. cbv iota.
    eexists _, _. split; [reflexivity|]. now repeat split.
Qed.

Lemma original_name_from_url_witness :
  exists r t,
    file env_plain "https://example.org:8443/a/b/data.tar.gz?sig=x/y#part" []
    = (inr r, t)
    /\ original_name r = "data.tar.gz".
Proof.
  destruct (original_name_from_url env_plain
              (mkUrlParts "https" "example.org:8443" "/a/b/data.tar.gz"
                 (Some "sig=x/y") (Some "part"))
              (mkResponse 200 [] body) eq_refl eq_refl eq_refl)
    as (Hname & Hret & _).
  destruct (Hret (fun _ => eq_refl) (fun _ => eq_refl) (fun _ _ => eq_refl))
    as (r & t & E).
  exists r, t. split; [exact E|].
  destruct (Hname r t E) as [_ Hseg]. now apply Hseg.
Defined.

(** C9, as stated, fails: for [http://x/y/report;v=2.csv] the last path
    segment of the URL is [report;v=2.csv], and [original_name] is
    [report]. *)
Lemma original_name_drops_params :
  exists r t,
    url_text report_params = "http://x/y/report;v=2.csv"
    /\ headers_contains "Content-Disposition" (headers (mkResponse 200 [] body))
       = false
    /\ file env_plain "http://x/y/report;v=2.csv" [] = (inr r, t)
    /\ original_name r = "report"
    /\ last_path_segment (u_path report_params) = "report;v=2.csv"
    /\ original_name r <> last_path_segment (u_path report_params).
Proof.
  eexists _, _. split; [reflexivity|]. split; [reflexivity|].
  split; [vm_compute; reflexivity|].
  cbn [original_name]. repeat split. discriminate.
Qed.
